(** * kaia-wallet-module: wallet backends, their connection state and
      the adapter that registers them

    A shallow embedding of [src/services/KaiaWalletService.ts],
    [src/adapters/WalletAdapter.ts], [src/types/wallet.types.ts] and
    [src/config/networks.ts].

    Methods are written in a small monad that threads the object they
    are called on ([this]), collects the observable effects in the order
    they happen (events emitted to subscribers, JSON-RPC requests sent
    to the injected provider, console warnings) and completes either by
    returning or by throwing.  A [throw] keeps every mutation made
    before it, as in JavaScript.

    Every method is embedded as one atomic run: an [await] is the point
    where the answer of the external collaborator is read from the
    [World].  A run is what the method does when nothing else touches
    the object between its suspension points.  What survives when the
    runs overlap is stated over the single state writes of the code
    ([StateWrite]) and over the two halves of the notification
    callbacks, whose state write is deferred past a query. *)

From Stdlib Require Import List String ZArith Lia Bool.
From Stdlib Require DecimalString HexadecimalString DecimalN HexadecimalN.
From Stdlib Require Import Ascii.
Import ListNotations.
Local Open Scope string_scope.

(* ================================================================= *)
(** ** JavaScript values, completions and the method monad *)

Module Js.

(** An [Error] object: the message and the optional numeric [code]
    that injected providers attach to a rejection. *)
Record JsError := mkError { message : string; code : option Z }.

(** [new Error(msg)] *)
Definition Error (msg : string) : JsError := mkError msg None.

Inductive Completion (A : Type) : Type :=
| Return (a : A)
| Throw (e : JsError).
Arguments Return {A} a.
Arguments Throw {A} e.

Record Run (S T A : Type) : Type := mkRun {
  final : S;
  trace : list T;
  completion : Completion A
}.
Arguments mkRun {S T A}.
Arguments final {S T A}.
Arguments trace {S T A}.
Arguments completion {S T A}.

Definition M (S T A : Type) : Type := S -> Run S T A.

Section Monad.
Context {S T : Type}.

Definition ret {A} (a : A) : M S T A :=
  fun s => mkRun s [] (Return a).

Definition throw {A} (e : JsError) : M S T A :=
  fun s => mkRun s [] (Throw e).

Definition bind {A B} (m : M S T A) (k : A -> M S T B) : M S T B :=
  fun s =>
    match m s with
    | mkRun s1 t1 (Return a) =>
        match k a s1 with
        | mkRun s2 t2 c => mkRun s2 (t1 ++ t2) c
        end
    | mkRun s1 t1 (Throw e) => mkRun s1 t1 (Throw e)
    end.

(** [try { m } catch (e) { h e }] *)
Definition try_catch {A} (m : M S T A) (h : JsError -> M S T A) : M S T A :=
  fun s =>
    match m s with
    | mkRun s1 t1 (Return a) => mkRun s1 t1 (Return a)
    | mkRun s1 t1 (Throw e) =>
        match h e s1 with
        | mkRun s2 t2 c => mkRun s2 (t1 ++ t2) c
        end
    end.

(** A call whose result is dropped. *)
Definition void {A} (m : M S T A) : M S T unit :=
  fun s =>
    match m s with
    | mkRun s1 t1 (Return _) => mkRun s1 t1 (Return tt)
    | mkRun s1 t1 (Throw e) => mkRun s1 t1 (Throw e)
    end.

Definition get : M S T S := fun s => mkRun s [] (Return s).
Definition put (s : S) : M S T unit := fun _ => mkRun s [] (Return tt).
Definition effect (t : T) : M S T unit := fun s => mkRun s [t] (Return tt).

(** The settled result of an external call. *)
Definition await {A} (c : Completion A) : M S T A :=
  fun s => mkRun s [] c.
End Monad.

Notation "x <- c1 ;; c2" := (bind c1 (fun x => c2))
  (at level 61, c1 at next level, right associativity).
Notation "c1 ;; c2" := (bind c1 (fun _ => c2))
  (at level 61, right associativity).

(** JavaScript truthiness of an optional string: [undefined] and the
    empty string are falsy. *)
Definition truthy (s : option string) : bool :=
  match s with
  | None => false
  | Some EmptyString => false
  | Some _ => true
  end.

(** [a || d] on optional strings. *)
Definition or_default (a : option string) (d : string) : string :=
  match a with
  | Some (String c r) => String c r
  | _ => d
  end.

(** [n.toString()] of a non-negative big integer. *)
Definition toString (n : N) : string :=
  DecimalString.NilEmpty.string_of_uint (N.to_uint n).

(** Reading a string of decimal digits back as a number. *)
Definition parse_decimal (s : string) : option N :=
  option_map N.of_uint (DecimalString.NilEmpty.uint_of_string s).

(** The integers a [number] holds exactly: up to
    [Number.MAX_SAFE_INTEGER] in absolute value. *)
Definition safe_integer (z : Z) : Prop :=
  (- (2 ^ 53 - 1) <= z <= 2 ^ 53 - 1)%Z.

(** [`${z}`] of an integer [number]: its decimal digits.  This is what
    JavaScript prints for a safe integer; from 1e21 up JavaScript
    prints the exponent form, which is not modelled, so a statement
    that pins the text carries [safe_integer]. *)
Definition toString10 (z : Z) : string :=
  DecimalString.NilEmpty.string_of_int (Z.to_int z).

(** [z.toString(16)] of an integer [number]. *)
Definition toString16 (z : Z) : string :=
  if (z <? 0)%Z
  then "-" ++ HexadecimalString.NilEmpty.string_of_uint (N.to_hex_uint (Z.to_N (- z)))
  else HexadecimalString.NilEmpty.string_of_uint (N.to_hex_uint (Z.to_N z)).

End Js.
Import Js.

(* ================================================================= *)
(** ** types/wallet.types.ts *)

Inductive WalletConnectionStatus : Type :=
| DISCONNECTED
| CONNECTING
| CONNECTED
| ERROR.

Inductive WalletProvider : Type :=
| KAIKAS
| METAMASK
| WALLET_CONNECT.

(** The string value of the enum member, as it is interpolated in
    messages. *)
Definition provider_name (p : WalletProvider) : string :=
  match p with
  | KAIKAS => "kaikas"
  | METAMASK => "metamask"
  | WALLET_CONNECT => "walletconnect"
  end.

Definition WalletProvider_eqb (p q : WalletProvider) : bool :=
  match p, q with
  | KAIKAS, KAIKAS | METAMASK, METAMASK | WALLET_CONNECT, WALLET_CONNECT => true
  | _, _ => false
  end.

Record Account := mkAccount { address : string; balance : string }.

Record Network := mkNetwork {
  chainId : Z;
  name : string;
  rpcUrl : string;
  blockExplorerUrl : option string
}.

Record TransactionParams := mkTransactionParams {
  to : string;
  value : option string;
  data : option string;
  gas : option string;
  gasPrice : option string
}.

Record TransactionResult := mkTransactionResult {
  hash : string;
  blockNumber : option Z;
  gasUsed : option string
}.

Record WalletState := mkWalletState {
  status : WalletConnectionStatus;
  account : option Account;
  network : option Network;
  provider : option WalletProvider;
  error : option string
}.

(** [Partial<WalletState>]: an absent key is [None]; a key that is
    present with value [null] is [Some None]. *)
Record PartialWalletState := mkPartial {
  status' : option WalletConnectionStatus;
  account' : option (option Account);
  network' : option (option Network);
  provider' : option (option WalletProvider);
  error' : option (option string)
}.

Inductive WalletEvent : Type :=
| accountsChanged (accounts : list string)
| chainChanged (chainId : string)
| connect_event (account : Account)
| disconnect_event
| error_event (error : JsError).

(* ================================================================= *)
(** ** config/networks.ts *)

Definition KAIA_NETWORKS : list (string * Network) :=
  [ ("mainnet",
     mkNetwork 8217 "Kaia Mainnet" "https://public-en.node.kaia.io"
               (Some "https://kaiascan.io"));
    ("testnet",
     mkNetwork 1001 "Kaia Testnet Kairos" "https://public-en-kairos.node.kaia.io"
               (Some "https://kairos.kaiascan.io")) ].

Definition DEFAULT_NETWORK : Network :=
  mkNetwork 8217 "Kaia Mainnet" "https://public-en.node.kaia.io"
            (Some "https://kaiascan.io").

(** [Object.values(KAIA_NETWORKS).find(n => n.chainId === chainId) || null] *)
Definition getNetworkByChainId (chainId0 : Z) : option Network :=
  find (fun network0 => (chainId network0 =? chainId0)%Z) (map snd KAIA_NETWORKS).

(* ================================================================= *)
(** ** External collaborators

    What the code consumes but does not implement: the global [window],
    the objects a wallet extension injects in it, and the
    [Web3Provider] of @kaiachain/ethers-ext wrapped around such an
    object.  Their answers are read from a [World]; every theorem
    quantifies over it. *)

Module Web3.

(** The two injected objects the code knows: [window.klaytn] and
    [window.ethereum]. *)
Inductive Injected : Type := klaytn | ethereum.

Record AddEthereumChainParameter := mkAddChain {
  add_chainId : string;
  chainName : string;
  rpcUrls : list string;
  blockExplorerUrls : option (list string)
}.

(** The argument of [provider.request]. *)
Inductive RequestArguments : Type :=
| eth_requestAccounts
| wallet_switchEthereumChain (chainId : string)
| wallet_addEthereumChain (params : AddEthereumChainParameter).

(** An element of the array [listAccounts()] resolves to: an address
    string, or a signer object carrying an [address]. *)
Inductive AccountEntry : Type :=
| entry_string (s : string)
| entry_object (address : string).

Record TransactionRequest := mkTransactionRequest {
  tx_to : string;
  tx_value : string;
  tx_data : string;
  tx_gasLimit : option string;
  tx_gasPrice : option string
}.

Record TransactionReceipt := mkReceipt {
  receipt_blockNumber : option Z;
  receipt_gasUsed : option N
}.

Record TransactionResponse := mkResponse {
  tx_hash : string;
  wait : Completion (option TransactionReceipt)
}.

Record Signer := mkSigner {
  signer_sendTransaction : TransactionRequest -> Completion TransactionResponse;
  signer_signMessage : string -> Completion string
}.

(** How one injected object, and the [Web3Provider] around it, answer.
    The methods of the [Web3Provider] are library code: what the
    library sends through the injected object to obtain these answers
    is not modelled and leaves nothing in a trace. *)
Record Answers := mkAnswers {
  request : RequestArguments -> Completion unit;
  listAccounts : Completion (option (list AccountEntry));
  getNetwork : Completion Z;
  getBalance : string -> Completion N;
  getSigner : Completion Signer
}.

(** [window]: each slot is [undefined] or an object with its brand
    marker ([isKaikas], [isMetaMask]). *)
Record Window := mkWindow {
  window_klaytn : option bool;
  window_ethereum : option bool
}.

Record World := mkWorld {
  window : option Window;          (* [None]: typeof window === 'undefined' *)
  answers : Injected -> Answers
}.

(** Messages of the errors the engine itself raises. *)
Definition ReferenceError_window : JsError :=
  Error "window is not defined".
Definition TypeError_undefined (prop : string) : JsError :=
  Error ("Cannot read properties of undefined (reading '" ++ prop ++ "')").

End Web3.

(* ================================================================= *)
(** ** services/KaiaWalletService.ts *)

Module Service.

(** The handle [new Web3Provider(provider)] returns. *)
Record Web3Provider := mkWeb3Provider { inner : Web3.Injected }.

(** [EthersExtWallet]; the code never creates one. *)
Inductive EthersExtWallet : Type := .

(** The fields of the class.  [nativeListeners] is not a field of the
    source: it records whether [setupEventListeners] registered the
    three callbacks on the injected object when the service was
    constructed. *)
Record KaiaWalletService := mkService {
  state : WalletState;
  web3Provider : option Web3Provider;
  wallet : option EthersExtWallet;
  walletProvider : WalletProvider;
  nativeListeners : bool
}.

(** What the code of the service itself does to the outside, in order:
    the events it emits and the calls of [provider.request] it makes.
    The traffic of the [Web3Provider] library on the injected object
    is not part of a trace. *)
Inductive Effect : Type :=
| emit_effect (e : WalletEvent)
| request_effect (target : Web3.Injected) (args : Web3.RequestArguments).

Definition Method (A : Type) : Type := M KaiaWalletService Effect A.

(** *** Error messages *)

Definition NotInstalled (p : WalletProvider) : JsError :=
  Error (provider_name p ++ " 지갑이 설치되지 않았습니다.").
Definition NoAccount : JsError := Error "계정을 찾을 수 없습니다.".
Definition NotConnected : JsError := Error "지갑이 연결되지 않았습니다.".
Definition BalanceFailed (cause : JsError) : JsError :=
  Error ("잔액 조회 실패: " ++ message cause).
Definition TransactionFailed (cause : JsError) : JsError :=
  Error ("트랜잭션 전송 실패: " ++ message cause).
Definition SigningFailed (cause : JsError) : JsError :=
  Error ("메시지 서명 실패: " ++ message cause).
Definition UnsupportedNetwork (chainId0 : Z) : JsError :=
  Error ("지원하지 않는 네트워크입니다: " ++ toString10 chainId0).
Definition UnsupportedWalletProvider (p : WalletProvider) : JsError :=
  Error ("지원하지 않는 지갑 제공자: " ++ provider_name p).

(** *** State *)

(** The initializer of the [state] field. *)
Definition initial_state : WalletState :=
  mkWalletState DISCONNECTED None None None None.

Definition getState (this : KaiaWalletService) : WalletState := state this.

(** [{ ...state, ...updates }] *)
Definition merge (s : WalletState) (updates : PartialWalletState) : WalletState :=
  mkWalletState
    (match status' updates with Some v => v | None => status s end)
    (match account' updates with Some v => v | None => account s end)
    (match network' updates with Some v => v | None => network s end)
    (match provider' updates with Some v => v | None => provider s end)
    (match error' updates with Some v => v | None => error s end).

Definition set_state (st : WalletState) : Method unit :=
  this <- get ;;
  put (mkService st (web3Provider this) (wallet this)
                 (walletProvider this) (nativeListeners this)).

Definition set_web3Provider (h : option Web3Provider) : Method unit :=
  this <- get ;;
  put (mkService (state this) h (wallet this)
                 (walletProvider this) (nativeListeners this)).

Definition set_wallet (v : option EthersExtWallet) : Method unit :=
  this <- get ;;
  put (mkService (state this) (web3Provider this) v
                 (walletProvider this) (nativeListeners this)).

Definition updateState (updates : PartialWalletState) : Method unit :=
  this <- get ;;
  set_state (merge (state this) updates).

(** [this.emit(event, ...)].  The subscribers are outside the model:
    an emission is recorded in the trace and returns. *)
Definition emit (e : WalletEvent) : Method unit := effect (emit_effect e).

Definition handleError (error0 : JsError) : Method unit :=
  updateState (mkPartial (Some ERROR) None None None (Some (Some (message error0)))) ;;
  emit (error_event error0).

(** *** Availability and the injected object *)

Definition isAvailable_for (w : Web3.World) (p : WalletProvider) : bool :=
  match Web3.window w with
  | None => false
  | Some win =>
      match p with
      | KAIKAS =>
          match Web3.window_klaytn win with
          | Some isKaikas => isKaikas
          | None => false
          end
      | METAMASK =>
          match Web3.window_ethereum win with
          | Some isMetaMask => isMetaMask
          | None => false
          end
      | WALLET_CONNECT => false
      end
  end.

Definition isAvailable (w : Web3.World) (this : KaiaWalletService) : bool :=
  isAvailable_for w (walletProvider this).

(** [getProvider()]: the value of [window.klaytn] or [window.ethereum],
    which may be [undefined] ([None]); reading either without a global
    [window] is a ReferenceError. *)
Definition getProvider (w : Web3.World) : Method (option Web3.Injected) :=
  this <- get ;;
  match walletProvider this with
  | KAIKAS =>
      match Web3.window w with
      | None => throw Web3.ReferenceError_window
      | Some win =>
          ret (match Web3.window_klaytn win with
               | Some _ => Some Web3.klaytn
               | None => None
               end)
      end
  | METAMASK =>
      match Web3.window w with
      | None => throw Web3.ReferenceError_window
      | Some win =>
          ret (match Web3.window_ethereum win with
               | Some _ => Some Web3.ethereum
               | None => None
               end)
      end
  | WALLET_CONNECT => throw (UnsupportedWalletProvider WALLET_CONNECT)
  end.

(** [provider.request(args)] on the value [getProvider()] returned. *)
Definition request (w : Web3.World) (target : option Web3.Injected)
           (args : Web3.RequestArguments) : Method unit :=
  match target with
  | None => throw (Web3.TypeError_undefined "request")
  | Some obj =>
      effect (request_effect obj args) ;;
      await (Web3.request (Web3.answers w obj) args)
  end.

(** [accounts[0]] as an address. *)
Definition address_of (e : Web3.AccountEntry) : string :=
  match e with
  | Web3.entry_string s => s
  | Web3.entry_object a => a
  end.

(** *** Methods *)

Definition disconnect : Method unit :=
  set_web3Provider None ;;
  set_wallet None ;;
  updateState (mkPartial (Some DISCONNECTED) (Some None) (Some None) None (Some None)) ;;
  emit disconnect_event.

Definition getBalance (w : Web3.World) (address0 : option string) : Method string :=
  this <- get ;;
  match web3Provider this with
  | None => throw NotConnected
  | Some h =>
      try_catch
        (targetAddress <-
           (if truthy address0
            then ret (or_default address0 "")
            else
              accounts <- await (Web3.listAccounts (Web3.answers w (inner h))) ;;
              match accounts with
              | None | Some [] => throw NoAccount
              | Some (first :: _) => ret (address_of first)
              end) ;;
         balance0 <- await (Web3.getBalance (Web3.answers w (inner h)) targetAddress) ;;
         ret (toString balance0))
        (fun error0 => throw (BalanceFailed error0))
  end.

Definition getAccount (w : Web3.World) : Method (option Account) :=
  this <- get ;;
  match web3Provider this with
  | None => ret None
  | Some h =>
      try_catch
        (accounts <- await (Web3.listAccounts (Web3.answers w (inner h))) ;;
         match accounts with
         | None | Some [] => ret None
         | Some (first :: _) =>
             let address0 := address_of first in
             balance0 <- getBalance w (Some address0) ;;
             ret (Some (mkAccount address0 balance0))
         end)
        (fun _ => ret None)
  end.

Definition getNetwork (w : Web3.World) : Method (option Network) :=
  this <- get ;;
  match web3Provider this with
  | None => ret None
  | Some h =>
      try_catch
        (chain <- await (Web3.getNetwork (Web3.answers w (inner h))) ;;
         ret (getNetworkByChainId chain))
        (fun _ => ret None)
  end.

(** Past the availability check [getProvider()] returns the injected
    object, so the [None] branch below is never taken. *)
Definition connect (w : Web3.World) : Method Account :=
  this <- get ;;
  if negb (isAvailable w this)
  then throw (NotInstalled (walletProvider this))
  else
    try_catch
      (updateState (mkPartial (Some CONNECTING) None None None None) ;;
       injected <- getProvider w ;;
       match injected with
       | None => throw (Web3.TypeError_undefined "request")
       | Some obj =>
           set_web3Provider (Some (mkWeb3Provider obj)) ;;
           request w injected Web3.eth_requestAccounts ;;
           accounts <- await (Web3.listAccounts (Web3.answers w obj)) ;;
           match accounts with
           | None | Some [] => throw NoAccount
           | Some (first :: _) =>
               let address0 := address_of first in
               balance0 <- getBalance w (Some address0) ;;
               let account0 := mkAccount address0 balance0 in
               network0 <- getNetwork w ;;
               updateState (mkPartial (Some CONNECTED) (Some (Some account0))
                                      (Some network0) None (Some None)) ;;
               emit (connect_event account0) ;;
               ret account0
           end
       end)
      (fun error0 => handleError error0 ;; throw error0).

Definition sendTransaction (w : Web3.World) (params : TransactionParams)
  : Method TransactionResult :=
  this <- get ;;
  match web3Provider this with
  | None => throw NotConnected
  | Some h =>
      try_catch
        (signer <- await (Web3.getSigner (Web3.answers w (inner h))) ;;
         let txParams :=
           Web3.mkTransactionRequest (to params)
             (or_default (value params) "0")
             (or_default (data params) "0x")
             (gas params) (gasPrice params) in
         tx <- await (Web3.signer_sendTransaction signer txParams) ;;
         receipt <- await (Web3.wait tx) ;;
         ret (mkTransactionResult
                (Web3.tx_hash tx)
                (match receipt with
                 | Some r => Web3.receipt_blockNumber r
                 | None => None
                 end)
                (match receipt with
                 | Some r => option_map toString (Web3.receipt_gasUsed r)
                 | None => None
                 end)))
        (fun error0 => throw (TransactionFailed error0))
  end.

Definition signMessage (w : Web3.World) (msg : string) : Method string :=
  this <- get ;;
  match web3Provider this with
  | None => throw NotConnected
  | Some h =>
      try_catch
        (signer <- await (Web3.getSigner (Web3.answers w (inner h))) ;;
         await (Web3.signer_signMessage signer msg))
        (fun error0 => throw (SigningFailed error0))
  end.

Definition hexChainId (chainId0 : Z) : string := "0x" ++ toString16 chainId0.

Definition addChainParameter (chainId0 : Z) (network0 : Network)
  : Web3.AddEthereumChainParameter :=
  Web3.mkAddChain (hexChainId chainId0) (name network0) [rpcUrl network0]
    (match blockExplorerUrl network0 with
     | Some (String c r) => Some [String c r]
     | _ => None
     end).

Definition switchNetwork (w : Web3.World) (chainId0 : Z) : Method unit :=
  injected <- getProvider w ;;
  match getNetworkByChainId chainId0 with
  | None => throw (UnsupportedNetwork chainId0)
  | Some network0 =>
      try_catch
        (request w injected (Web3.wallet_switchEthereumChain (hexChainId chainId0)))
        (fun switchError =>
           match code switchError with
           | Some 4902%Z =>
               request w injected
                 (Web3.wallet_addEthereumChain (addChainParameter chainId0 network0))
           | _ => throw switchError
           end)
  end.

(** *** Construction and the callbacks on the injected object *)

(** [new KaiaWalletService(walletProvider)]; [setupEventListeners]
    registers the callbacks only when the wallet is available then. *)
Definition new (w : Web3.World) (p : WalletProvider) : KaiaWalletService :=
  mkService
    (mkWalletState (status initial_state) (account initial_state)
                   (network initial_state) (Some p) (error initial_state))
    None None p (isAvailable_for w p).

(** The callback registered for the provider's ['accountsChanged'],
    run to completion: what arrives with the notification, then the
    [.then] once [getAccount()] has settled, with nothing in between.
    [on_accountsChanged_then] is that second half alone. *)
Definition on_accountsChanged (w : Web3.World) (accounts : list string) : Method unit :=
  emit (accountsChanged accounts) ;;
  if (List.length accounts =? 0)%nat
  then disconnect
  else
    account0 <- getAccount w ;;
    match account0 with
    | Some a => updateState (mkPartial None (Some (Some a)) None None None)
    | None => ret tt
    end.

(** The callback registered for the provider's ['chainChanged'], run
    to completion: [on_chainChanged_query] followed at once by
    [on_chainChanged_then]. *)
Definition on_chainChanged (w : Web3.World) (chainId0 : string) : Method unit :=
  emit (chainChanged chainId0) ;;
  network0 <- getNetwork w ;;
  updateState (mkPartial None None (Some network0) None None).

(** The callback registered for the provider's ['disconnect']. *)
Definition on_disconnect : Method unit := disconnect.

(** The first half of the ['chainChanged'] callback: the emission and
    the call of [getNetwork()], which reads the provider handle when it
    is called and nothing of the service after its query. *)
Definition on_chainChanged_query (w : Web3.World) (chainId0 : string)
  : Method (option Network) :=
  emit (chainChanged chainId0) ;;
  getNetwork w.

(** The second half: [network => this.updateState({ network })], run
    when the promise of [getNetwork()] has settled. *)
Definition on_chainChanged_then (network0 : option Network) : Method unit :=
  updateState (mkPartial None None (Some network0) None None).

(** The [.then] of the ['accountsChanged'] callback, run when the
    promise of [getAccount()] has settled. *)
Definition on_accountsChanged_then (account0 : option Account) : Method unit :=
  match account0 with
  | Some a => updateState (mkPartial None (Some (Some a)) None None None)
  | None => ret tt
  end.

(** A notification of the injected object: it reaches the service only
    through the callbacks [setupEventListeners] registered. *)
Inductive Notification : Type :=
| native_accountsChanged (accounts : list string)
| native_chainChanged (chainId : string)
| native_disconnect.

Definition notify (w : Web3.World) (n : Notification) : Method unit :=
  this <- get ;;
  if nativeListeners this
  then
    match n with
    | native_accountsChanged accounts => on_accountsChanged w accounts
    | native_chainChanged c => on_chainChanged w c
    | native_disconnect => on_disconnect
    end
  else ret tt.

(** Everything that can happen to a service after its construction:
    a call of a public method or a notification of the injected object. *)
Inductive Op : Type :=
| op_connect
| op_disconnect
| op_getAccount
| op_getNetwork
| op_getBalance (address : option string)
| op_sendTransaction (params : TransactionParams)
| op_signMessage (msg : string)
| op_switchNetwork (chainId : Z)
| op_notify (n : Notification).

Definition run (w : Web3.World) (o : Op) : Method unit :=
  match o with
  | op_connect => void (connect w)
  | op_disconnect => disconnect
  | op_getAccount => void (getAccount w)
  | op_getNetwork => void (getNetwork w)
  | op_getBalance a => void (getBalance w a)
  | op_sendTransaction p => void (sendTransaction w p)
  | op_signMessage m => void (signMessage w m)
  | op_switchNetwork c => switchNetwork w c
  | op_notify n => notify w n
  end.

(** The states a service can be in: freshly constructed, or one
    operation after a reachable state, in any world. *)
Inductive reachable : KaiaWalletService -> Prop :=
| reachable_new (w : Web3.World) (p : WalletProvider) : reachable (new w p)
| reachable_run (w : Web3.World) (o : Op) (this : KaiaWalletService) :
    reachable this -> reachable (final (run w o this)).

(** The injected object a wallet kind talks to when it is available. *)
Definition injected_of (p : WalletProvider) : Web3.Injected :=
  match p with
  | KAIKAS => Web3.klaytn
  | _ => Web3.ethereum
  end.

(** The service after a history of operations, each in its own world. *)
Fixpoint run_all (history : list (Web3.World * Op)) (this : KaiaWalletService)
  : KaiaWalletService :=
  match history with
  | [] => this
  | (w, o) :: rest => run_all rest (final (run w o this))
  end.

End Service.

(* ================================================================= *)
(** ** adapters/WalletAdapter.ts *)

Module Adapter.

(** *** A JavaScript [Map] keyed by [WalletProvider]

    Kept as an association list in insertion order: [set] on a key
    that is present replaces the value in place, on a new key appends. *)

Definition Map (V : Type) : Type := list (WalletProvider * V).

Fixpoint Map_get {V} (k : WalletProvider) (m : Map V) : option V :=
  match m with
  | [] => None
  | (k', v) :: rest => if WalletProvider_eqb k k' then Some v else Map_get k rest
  end.

Fixpoint Map_set {V} (k : WalletProvider) (v : V) (m : Map V) : Map V :=
  match m with
  | [] => [(k, v)]
  | (k', v') :: rest =>
      if WalletProvider_eqb k k' then (k', v) :: rest
      else (k', v') :: Map_set k v rest
  end.

Definition Map_keys {V} (m : Map V) : list WalletProvider := map fst m.

(** [currentWallet] is a reference to one of the objects the map holds.
    The map is filled once, in the constructor, so the key of an entry
    identifies the object for the life of the adapter: a reference to a
    wallet, here and in what [selectWallet] and [autoConnect] return,
    is the key under which the wallet is registered. *)
Definition IWallet : Type := WalletProvider.

Record WalletAdapter := mkAdapter {
  wallets : Map Service.KaiaWalletService;
  currentWallet : option IWallet
}.

Inductive Effect : Type :=
| wallet_effect (handle : IWallet) (e : Service.Effect)
| console_warn (msg : string) (error : JsError).

Definition Method (A : Type) : Type := M WalletAdapter Effect A.

Definition UnsupportedProvider (p : WalletProvider) : JsError :=
  Error ("지원하지 않는 지갑입니다: " ++ provider_name p).
Definition Unavailable (p : WalletProvider) : JsError :=
  Error (provider_name p ++ " 지갑을 사용할 수 없습니다.").

(** A method call on the wallet a reference points to: the wallet's
    run happens inside the adapter's store.  A reference always points
    to a registered wallet; the last branch is for totality. *)
Definition call {A} (handle : IWallet) (m : Service.Method A) : Method A :=
  fun this =>
    match Map_get handle (wallets this) with
    | Some wallet0 =>
        let r := m wallet0 in
        mkRun (mkAdapter (Map_set handle (final r) (wallets this)) (currentWallet this))
              (map (wallet_effect handle) (trace r))
              (completion r)
    | None => mkRun this [] (Throw (Web3.TypeError_undefined "call"))
    end.

Definition initializeWallets (w : Web3.World) (m : Map Service.KaiaWalletService)
  : Map Service.KaiaWalletService :=
  Map_set METAMASK (Service.new w METAMASK)
    (Map_set KAIKAS (Service.new w KAIKAS) m).

(** [new WalletAdapter()] *)
Definition new (w : Web3.World) : WalletAdapter :=
  mkAdapter (initializeWallets w []) None.

Definition getAvailableWallets (w : Web3.World) (this : WalletAdapter)
  : list WalletProvider :=
  map fst
    (filter (fun entry => Service.isAvailable w (snd entry)) (wallets this)).

Definition selectWallet (w : Web3.World) (p : WalletProvider) : Method IWallet :=
  this <- get ;;
  match Map_get p (wallets this) with
  | None => throw (UnsupportedProvider p)
  | Some wallet0 =>
      if negb (Service.isAvailable w wallet0)
      then throw (Unavailable p)
      else
        put (mkAdapter (wallets this) (Some p)) ;;
        ret p
  end.

Definition getCurrentWallet (this : WalletAdapter) : option IWallet :=
  currentWallet this.

Definition includes (l : list WalletProvider) (p : WalletProvider) : bool :=
  existsb (WalletProvider_eqb p) l.

Definition priority : list WalletProvider := [KAIKAS; METAMASK; WALLET_CONNECT].

(** The [for (const provider of priority)] loop of [autoConnect]. *)
Fixpoint autoConnect_loop (w : Web3.World) (availableWallets : list WalletProvider)
         (rest : list WalletProvider) : Method (option IWallet) :=
  match rest with
  | [] => ret None
  | p :: rest' =>
      if includes availableWallets p
      then
        try_catch
          (wallet0 <- selectWallet w p ;;
           call wallet0 (Service.connect w) ;;
           ret (Some wallet0))
          (fun error0 =>
             effect (console_warn (provider_name p ++ " 연결 실패:") error0) ;;
             autoConnect_loop w availableWallets rest')
      else autoConnect_loop w availableWallets rest'
  end.

Definition autoConnect (w : Web3.World) : Method (option IWallet) :=
  this <- get ;;
  let availableWallets := getAvailableWallets w this in
  if (List.length availableWallets =? 0)%nat
  then ret None
  else autoConnect_loop w availableWallets priority.

(** The [for (const wallet of this.wallets.values())] loop of
    [disconnectAll]. *)
Fixpoint disconnectAll_loop (handles : list IWallet) : Method unit :=
  match handles with
  | [] => ret tt
  | h :: rest =>
      try_catch
        (state0 <- call h (this <- get ;; ret (Service.getState this)) ;;
         match status state0 with
         | CONNECTED => call h Service.disconnect
         | _ => ret tt
         end)
        (fun error0 => effect (console_warn "지갑 연결 해제 중 오류:" error0)) ;;
      disconnectAll_loop rest
  end.

Definition disconnectAll : Method unit :=
  this <- get ;;
  disconnectAll_loop (Map_keys (wallets this)) ;;
  this' <- get ;;
  put (mkAdapter (wallets this') None).

(** [states[provider] = wallet.getState()] for every entry, in order. *)
Definition getWalletStates (this : WalletAdapter) : Map WalletState :=
  fold_left
    (fun states entry => Map_set (fst entry) (Service.getState (snd entry)) states)
    (wallets this) [].

(** What can happen to an adapter after its construction: a call of one
    of its methods, or anything that can happen to one of its wallets
    (the caller holds references to them). *)
Inductive Op : Type :=
| op_selectWallet (p : WalletProvider)
| op_autoConnect
| op_disconnectAll
| op_wallet (handle : IWallet) (o : Service.Op).

Definition run (w : Web3.World) (o : Op) : Method unit :=
  match o with
  | op_selectWallet p => void (selectWallet w p)
  | op_autoConnect => void (autoConnect w)
  | op_disconnectAll => disconnectAll
  | op_wallet h so => call h (Service.run w so)
  end.

Inductive reachable : WalletAdapter -> Prop :=
| reachable_new (w : Web3.World) : reachable (new w)
| reachable_run (w : Web3.World) (o : Op) (this : WalletAdapter) :
    reachable this -> reachable (final (run w o this)).

End Adapter.

(* ================================================================= *)
(** ** Properties of a wallet state *)

Module Invariant.

(** The invariant in the words of the specification. *)
Definition WalletState_invariant (s : WalletState) : Prop :=
  (account s <> None -> status s = CONNECTED) /\
  (status s = DISCONNECTED -> account s = None /\ network s = None) /\
  (status s = ERROR -> error s <> None).

(** [status = Connected] iff [account != null]. *)
Definition connected_iff_account (s : WalletState) : Prop :=
  status s = CONNECTED <-> account s <> None.

(** What the code keeps true of the state between operations. *)
Definition maintained (s : WalletState) : Prop :=
  (status s = CONNECTED -> account s <> None) /\
  (status s = DISCONNECTED -> account s = None /\ network s = None) /\
  (status s = ERROR -> error s <> None).

(** The same, with what the proof by induction needs about the
    provider handle. *)
Definition consistent (this : Service.KaiaWalletService) : Prop :=
  match status (Service.state this) with
  | DISCONNECTED =>
      account (Service.state this) = None /\
      network (Service.state this) = None /\
      error (Service.state this) = None /\
      Service.web3Provider this = None
  | CONNECTING => True
  | CONNECTED =>
      account (Service.state this) <> None /\
      error (Service.state this) = None /\
      Service.web3Provider this <> None
  | ERROR => error (Service.state this) <> None
  end.

(** The state writes of the code: one constructor for each call of
    [updateState], with the object it is given there.  Each is one
    synchronous assignment of [this.state]. *)
Inductive StateWrite : Type :=
| write_connecting                                      (* connect *)
| write_connected (a : Account) (n : option Network)    (* connect *)
| write_error (msg : string)                            (* handleError *)
| write_disconnected                                    (* disconnect *)
| write_account (a : Account)                           (* accountsChanged *)
| write_network (n : option Network).                   (* chainChanged *)

Definition updates_of (wr : StateWrite) : PartialWalletState :=
  match wr with
  | write_connecting => mkPartial (Some CONNECTING) None None None None
  | write_connected a n =>
      mkPartial (Some CONNECTED) (Some (Some a)) (Some n) None (Some None)
  | write_error msg => mkPartial (Some ERROR) None None None (Some (Some msg))
  | write_disconnected =>
      mkPartial (Some DISCONNECTED) (Some None) (Some None) None (Some None)
  | write_account a => mkPartial None (Some (Some a)) None None None
  | write_network n => mkPartial None None (Some n) None None
  end.

Definition apply_write (s : WalletState) (wr : StateWrite) : WalletState :=
  Service.merge s (updates_of wr).

(** The part of the invariant that every single write keeps. *)
Definition kept_by_writes (s : WalletState) : Prop :=
  (status s = CONNECTED -> account s <> None) /\
  (status s = ERROR -> error s <> None).

(** The part that a single write can break. *)
Definition disconnected_is_empty (s : WalletState) : Prop :=
  status s = DISCONNECTED -> account s = None /\ network s = None.

End Invariant.

(* ================================================================= *)
(** ** The registry of an adapter and the auto-connect policy *)

Module Policy.

(** What the constructor registers: a Kaikas service, then a MetaMask
    service, each under its own kind. *)
Definition registered (this : Adapter.WalletAdapter) : Prop :=
  exists k m : Service.KaiaWalletService,
    Adapter.wallets this = [(KAIKAS, k); (METAMASK, m)] /\
    Service.walletProvider k = KAIKAS /\
    Service.walletProvider m = METAMASK.

(** Every wallet of the adapter is in a state a service can reach. *)
Definition backends_reachable (this : Adapter.WalletAdapter) : Prop :=
  forall (p : WalletProvider) (wallet0 : Service.KaiaWalletService),
    Adapter.Map_get p (Adapter.wallets this) = Some wallet0 ->
    Service.reachable wallet0.

(** [connect()] of the wallet registered under [p] would return. *)
Definition connects (w : Web3.World) (this : Adapter.WalletAdapter)
           (p : WalletProvider) : bool :=
  match Adapter.Map_get p (Adapter.wallets this) with
  | Some wallet0 =>
      match completion (Service.connect w wallet0) with
      | Return _ => true
      | Throw _ => false
      end
  | None => false
  end.

(** The policy in the words of the specification: the fixed priority
    order, intersected with the available wallets, and in it the first
    wallet whose [connect()] succeeds, if any. *)
Definition first_connecting (w : Web3.World) (this : Adapter.WalletAdapter)
  : option WalletProvider :=
  find (connects w this)
       (filter (Adapter.includes (Adapter.getAvailableWallets w this))
               Adapter.priority).

(** The status of the wallet registered under [p]. *)
Definition status_of (this : Adapter.WalletAdapter) (p : WalletProvider)
  : option WalletConnectionStatus :=
  option_map (fun wallet0 => status (Service.state wallet0))
             (Adapter.Map_get p (Adapter.wallets this)).

End Policy.

(* ================================================================= *)
(** ** Worlds used in the examples *)

Module Examples.

Definition user_rejected : JsError :=
  mkError "User rejected the request." (Some 4001%Z).

Definition unrecognized_chain : JsError :=
  mkError "Unrecognized chain ID." (Some 4902%Z).

Definition signer_ok : Web3.Signer :=
  Web3.mkSigner
    (fun _ => Return (Web3.mkResponse "0xabcdef1234567890"
                        (Return (Some (Web3.mkReceipt (Some 12345%Z) (Some 21000%N))))))
    (fun _ => Return "0xsignature123").

(** One account [0xABC] holding 10^18 of the smallest unit, on mainnet;
    every request is approved. *)
Definition answers_ok : Web3.Answers :=
  Web3.mkAnswers
    (fun _ => Return tt)
    (Return (Some [Web3.entry_string "0xABC"]))
    (Return 8217%Z)
    (fun _ => Return 1000000000000000000%N)
    (Return signer_ok).

(** The user declines every request. *)
Definition answers_rejecting : Web3.Answers :=
  Web3.mkAnswers
    (fun _ => Throw user_rejected)
    (Return (Some [Web3.entry_string "0xABC"]))
    (Return 8217%Z)
    (fun _ => Return 1000000000000000000%N)
    (Return signer_ok).

(** The session has no account. *)
Definition answers_no_account : Web3.Answers :=
  Web3.mkAnswers
    (fun _ => Return tt)
    (Return (Some []))
    (Return 8217%Z)
    (fun _ => Return 1000000000000000000%N)
    (Return signer_ok).

(** The chain query fails. *)
Definition answers_network_down : Web3.Answers :=
  Web3.mkAnswers
    (fun _ => Return tt)
    (Return (Some [Web3.entry_string "0xABC"]))
    (Throw (Error "could not detect network"))
    (fun _ => Return 1000000000000000000%N)
    (Return signer_ok).

(** The wallet does not know the chain it is asked to switch to, and
    accepts to add it. *)
Definition answers_unknown_chain : Web3.Answers :=
  Web3.mkAnswers
    (fun args =>
       match args with
       | Web3.wallet_switchEthereumChain _ => Throw unrecognized_chain
       | _ => Return tt
       end)
    (Return (Some [Web3.entry_string "0xABC"]))
    (Return 8217%Z)
    (fun _ => Return 1000000000000000000%N)
    (Return signer_ok).

Definition window_both : Web3.Window := Web3.mkWindow (Some true) (Some true).
Definition window_empty : Web3.Window := Web3.mkWindow None None.

Definition world_ok : Web3.World :=
  Web3.mkWorld (Some window_both) (fun _ => answers_ok).
Definition world_rejecting : Web3.World :=
  Web3.mkWorld (Some window_both) (fun _ => answers_rejecting).
Definition world_no_account : Web3.World :=
  Web3.mkWorld (Some window_both) (fun _ => answers_no_account).
Definition world_network_down : Web3.World :=
  Web3.mkWorld (Some window_both) (fun _ => answers_network_down).
Definition world_unknown_chain : Web3.World :=
  Web3.mkWorld (Some window_both) (fun _ => answers_unknown_chain).
Definition world_no_wallet : Web3.World :=
  Web3.mkWorld (Some window_empty) (fun _ => answers_ok).
Definition world_no_window : Web3.World :=
  Web3.mkWorld None (fun _ => answers_ok).

(** Kaikas declines, MetaMask approves. *)
Definition world_kaikas_rejecting : Web3.World :=
  Web3.mkWorld (Some window_both)
    (fun obj =>
       match obj with
       | Web3.klaytn => answers_rejecting
       | Web3.ethereum => answers_ok
       end).

(** A service that connected once and whose second [connect()] the
    user declined. *)
Definition reconnect_declined : Service.KaiaWalletService :=
  final (Service.run world_rejecting Service.op_connect
           (final (Service.run world_ok Service.op_connect
                     (Service.new world_ok KAIKAS)))).

(** A connected Kaikas service. *)
Definition connected : Service.KaiaWalletService :=
  final (Service.run world_ok Service.op_connect (Service.new world_ok KAIKAS)).

End Examples.

(* ================================================================= *)
(** ** Reading a hexadecimal chain id back *)

Module Encoding.

(** The number a string of hexadecimal digits denotes. *)
Definition parse_hex (s : string) : option N :=
  option_map N.of_hex_uint (HexadecimalString.NilEmpty.uint_of_string s).

End Encoding.

(* ================================================================= *)
(** ** __tests__/integration: the utilities of the set-up file *)

Module Setup.

(** The character class [[a-fA-F0-9]]. *)
Definition is_hex_char (c : ascii) : bool :=
  let n := N_of_ascii c in
  ((48 <=? n) && (n <=? 57) || (65 <=? n) && (n <=? 70)
   || (97 <=? n) && (n <=? 102))%N.

(** [[a-fA-F0-9]{n}$]: exactly [n] characters of the class, then the
    end of the string. *)
Fixpoint hex_exactly (n : nat) (s : string) : bool :=
  match n, s with
  | O, EmptyString => true
  | S n', String c rest => is_hex_char c && hex_exactly n' rest
  | _, _ => false
  end.

(** [/^0x[a-fA-F0-9]{n}$/.test(s)] *)
Definition test_0x_hex (n : nat) (s : string) : bool :=
  match s with
  | String c1 (String c2 rest) =>
      Ascii.eqb c1 "0" && Ascii.eqb c2 "x" && hex_exactly n rest
  | _ => false
  end.

Definition isValidAddress (address0 : string) : bool := test_0x_hex 40 address0.
Definition isValidTxHash (hash0 : string) : bool := test_0x_hex 64 hash0.
Definition isValidBlockHash (hash0 : string) : bool := test_0x_hex 64 hash0.

Definition all_hex (s : string) : bool :=
  forallb is_hex_char (list_ascii_of_string s).

(** What the promise of [retryNetworkCall] settles to.  The value
    thrown by [throw lastError!] is [undefined] ([None]) when the loop
    never ran. *)
Inductive Settled (A : Type) : Type :=
| Resolved (a : A)
| Rejected (reason : option JsError).
Arguments Resolved {A} a.
Arguments Rejected {A} reason.

Inductive Effect : Type :=
| console_warn (msg : string) (error : JsError)
| setTimeout (delay : Z).

(** The [for (let i = 0; i < maxRetries; i++)] loop; [remaining] is the
    number of iterations left and [fn i] what the call of [fn] in
    iteration [i] settles to. *)
Fixpoint retry_loop {A} (fn : nat -> Completion A) (maxRetries delay : Z)
         (remaining i : nat) (lastError : option JsError)
  : list Effect * Settled A :=
  match remaining with
  | O => ([], Rejected lastError)
  | S remaining' =>
      match fn i with
      | Return v => ([], Resolved v)
      | Throw error0 =>
          let warn :=
            console_warn ("네트워크 호출 실패 (" ++ toString10 (Z.of_nat i + 1)
                          ++ "/" ++ toString10 maxRetries ++ "):") error0 in
          let pause :=
            if (Z.of_nat i <? maxRetries - 1)%Z then [setTimeout delay] else [] in
          let next :=
            retry_loop fn maxRetries delay remaining' (S i) (Some error0) in
          ((warn :: pause) ++ fst next, snd next)%list
      end
  end.

(** [retryNetworkCall(fn, maxRetries = 3, delay = 1000)], for an
    integer [maxRetries]. *)
Definition retryNetworkCall {A} (fn : nat -> Completion A)
           (maxRetries delay : option Z) : list Effect * Settled A :=
  let maxRetries0 := match maxRetries with Some m => m | None => 3%Z end in
  let delay0 := match delay with Some d => d | None => 1000%Z end in
  retry_loop fn maxRetries0 delay0 (Z.to_nat maxRetries0) 0 None.

Definition is_warn (e : Effect) : bool :=
  match e with console_warn _ _ => true | setTimeout _ => false end.

Definition warnings (t : list Effect) : nat := List.length (filter is_warn t).
Definition pauses (t : list Effect) : nat :=
  List.length (filter (fun e => negb (is_warn e)) t).

(** A call that fails twice and then answers. *)
Definition flaky (i : nat) : Completion string :=
  match i with
  | 0%nat => Throw (Error "timeout")
  | 1%nat => Throw (Error "reset")
  | _ => Return "0x1"
  end.

End Setup.

(* ================================================================= *)
(** ** Tactics for running a method symbolically *)

Import Service.

Ltac run_unfold :=
  unfold run, notify, on_disconnect, on_accountsChanged, on_chainChanged, void,
    connect, disconnect, getAccount, getNetwork, getBalance, sendTransaction,
    signMessage, switchNetwork, request, getProvider, handleError, updateState,
    set_state, set_web3Provider, set_wallet, emit, isAvailable,
    bind, try_catch, ret, throw, get, put, effect, await in *.

(** Case analysis on an innermost scrutinee that blocks the run. *)
Ltac break_match :=
  match goal with
  | |- context [match ?x with _ => _ end] =>
      lazymatch x with
      | context [match _ with _ => _ end] => fail
      | _ => destruct x eqn:?
      end
  end.

Ltac run_cases tac := repeat (break_match; cbn in *; try tac).

(* ================================================================= *)
(** ** What no operation touches *)

Lemma run_frame w o this :
  walletProvider (final (run w o this)) = walletProvider this /\
  nativeListeners (final (run w o this)) = nativeListeners this.
Proof.
  destruct this as [st h wl p nl].
  destruct o as [ | | | | a | pa | m | c | [accs | c | ]]; run_unfold; cbn.
  all: run_cases ltac:(split; reflexivity).
  all: split; reflexivity.
Qed.

Lemma run_all_frame history this :
  walletProvider (run_all history this) = walletProvider this /\
  nativeListeners (run_all history this) = nativeListeners this.
Proof.
  revert this; induction history as [| [w o] rest IH]; intros this; cbn.
  - split; reflexivity.
  - destruct (IH (final (run w o this))) as [IHp IHl].
    destruct (run_frame w o this) as [Hp Hl].
    split; congruence.
Qed.

Lemma reachable_run_all history w p : reachable (run_all history (new w p)).
Proof.
  assert (G : forall this, reachable this -> reachable (run_all history this)).
  { induction history as [| [w' o] rest IH]; intros this H; cbn.
    - exact H.
    - apply IH. constructor. exact H. }
  apply G. constructor.
Qed.

(* ================================================================= *)
(** ** disconnect *)

(** C6. [disconnect()] returns normally from every state, clears the
    provider handle (and the unused wallet handle), leaves the state
    [Disconnected] with account, network and error null (the provider
    kind is kept), and emits exactly one [disconnect] event.  A second
    call returns normally too, leaves the service as the first call
    left it, and emits [disconnect] once more. *)
Theorem C6_disconnect_resets_and_is_idempotent :
  forall this : KaiaWalletService,
    let r := disconnect this in
    let r2 := disconnect (final r) in
    completion r = Return tt /\
    web3Provider (final r) = None /\
    wallet (final r) = None /\
    state (final r) =
      mkWalletState DISCONNECTED None None (provider (state this)) None /\
    trace r = [emit_effect disconnect_event] /\
    completion r2 = Return tt /\
    final r2 = final r /\
    trace r2 = [emit_effect disconnect_event].
Proof.
  intros [st h wl p nl]. cbn. repeat split.
Qed.

(* ================================================================= *)
(** ** Notifications of the injected object *)

(** C3. A service constructed while its wallet is available has its
    callbacks registered; after any history of operations, a native
    [accountsChanged] carrying the empty list leaves the service
    [Disconnected] with account and network null and the provider
    handle cleared, and the service emits [accountsChanged] followed by
    [disconnect]. *)
Theorem C3_empty_accountsChanged_runs_disconnect :
  forall (w0 : Web3.World) (p : WalletProvider)
         (history : list (Web3.World * Op)) (w : Web3.World),
    isAvailable_for w0 p = true ->
    let this := run_all history (new w0 p) in
    let r := notify w (native_accountsChanged []) this in
    completion r = Return tt /\
    status (state (final r)) = DISCONNECTED /\
    account (state (final r)) = None /\
    network (state (final r)) = None /\
    web3Provider (final r) = None /\
    trace r = [emit_effect (accountsChanged []); emit_effect disconnect_event].
Proof.
  intros w0 p history w Hav this r.
  assert (Hl : nativeListeners this = true).
  { unfold this. destruct (run_all_frame history (new w0 p)) as [_ ->].
    exact Hav. }
  subst r. destruct this as [st h wl q nl]. cbn in Hl. subst nl.
  cbn. repeat split.
Qed.

Lemma C3_witness :
  isAvailable_for Examples.world_ok KAIKAS = true /\
  trace (notify Examples.world_ok (native_accountsChanged [])
           (run_all [(Examples.world_ok, op_connect)]
                    (new Examples.world_ok KAIKAS)))
  = [emit_effect (accountsChanged []); emit_effect disconnect_event].
Proof.
  split.
  - reflexivity.
  - apply (C3_empty_accountsChanged_runs_disconnect
             Examples.world_ok KAIKAS [(Examples.world_ok, op_connect)]
             Examples.world_ok).
    reflexivity.
Defined.

(* ================================================================= *)
(** ** The state between operations *)

Import Invariant.

Lemma new_consistent w p : consistent (new w p).
Proof. cbv. repeat split. Qed.

Lemma run_consistent w o this :
  consistent this -> consistent (final (run w o this)).
Proof.
  destruct this as [[s a n p e] h wl q nl].
  unfold consistent; cbn.
  intros H.
  destruct o as [ | | | | ad | pa | m | c | [accs | c | ]]; run_unfold; cbn.
  all: run_cases ltac:(first [ exact H | intuition congruence ]).
  all: first [ exact H | intuition congruence ].
Qed.

Lemma reachable_consistent this : reachable this -> consistent this.
Proof.
  induction 1 as [w p | w o this _ IH].
  - apply new_consistent.
  - apply run_consistent, IH.
Qed.

Lemma consistent_maintained this : consistent this -> maintained (state this).
Proof.
  unfold consistent, maintained.
  destruct (status (state this)); intuition congruence.
Qed.

(* ================================================================= *)
(** ** The reading methods leave the service alone *)

Lemma getBalance_reads w a this :
  final (getBalance w a this) = this /\ trace (getBalance w a this) = [].
Proof.
  destruct this as [st h wl q nl]. run_unfold; cbn.
  run_cases ltac:(split; reflexivity). all: split; reflexivity.
Qed.

Lemma getAccount_reads w this :
  final (getAccount w this) = this /\ trace (getAccount w this) = [].
Proof.
  destruct this as [st h wl q nl]. run_unfold; cbn.
  run_cases ltac:(split; reflexivity). all: split; reflexivity.
Qed.

Lemma getNetwork_reads w this :
  final (getNetwork w this) = this /\ trace (getNetwork w this) = [].
Proof.
  destruct this as [st h wl q nl]. run_unfold; cbn.
  run_cases ltac:(split; reflexivity). all: split; reflexivity.
Qed.

(* ================================================================= *)
(** ** connect *)

Lemma available_window w p :
  isAvailable_for w p = true ->
  p <> WALLET_CONNECT /\
  exists win, Web3.window w = Some win /\
    match p with
    | KAIKAS => Web3.window_klaytn win = Some true
    | _ => Web3.window_ethereum win = Some true
    end.
Proof.
  unfold isAvailable_for. destruct (Web3.window w) as [win|]; [|discriminate].
  destruct p.
  - destruct (Web3.window_klaytn win) as [[]|] eqn:E; try discriminate.
    intros _. split; [discriminate | exists win; split; [reflexivity | exact E]].
  - destruct (Web3.window_ethereum win) as [[]|] eqn:E; try discriminate.
    intros _. split; [discriminate | exists win; split; [reflexivity | exact E]].
  - discriminate.
Qed.

Local Arguments getNetworkByChainId : simpl never.

(** Clears an equation between two completions. *)
Ltac same_completion :=
  repeat match goal with
    | H : Return _ = Return _ |- _ => inversion H; subst; clear H
    | H : Throw _ = Throw _ |- _ => inversion H; subst; clear H
    | H : Return _ = Throw _ |- _ => discriminate H
    | H : Throw _ = Return _ |- _ => discriminate H
    | H : Some _ = Some _ |- _ => inversion H; subst; clear H
    | H : _ :: _ = _ :: _ |- _ => inversion H; subst; clear H
    end.

(** The balance of the first account of the session, asked for by
    address: also when that address is the empty string, which
    [getBalance] takes for an omitted one. *)
Lemma getBalance_of_first w st h wl q nl first rest :
  Web3.listAccounts (Web3.answers w (inner h)) = Return (Some (first :: rest)) ->
  getBalance w (Some (address_of first)) (mkService st (Some h) wl q nl)
  = mkRun (mkService st (Some h) wl q nl) []
      (match Web3.getBalance (Web3.answers w (inner h)) (address_of first) with
       | Return b => Return (toString b)
       | Throw cause => Throw (BalanceFailed cause)
       end).
Proof.
  intros Hl. run_unfold; cbn.
  destruct (address_of first) as [|c0 s0] eqn:Ha; cbn.
  - rewrite Hl; cbn. rewrite Ha.
    destruct (Web3.getBalance _ _); reflexivity.
  - destruct (Web3.getBalance _ _); reflexivity.
Qed.

Lemma getNetwork_connected w st h wl q nl :
  getNetwork w (mkService st (Some h) wl q nl)
  = mkRun (mkService st (Some h) wl q nl) []
      (Return (match Web3.getNetwork (Web3.answers w (inner h)) with
               | Return chain => getNetworkByChainId chain
               | Throw _ => None
               end)).
Proof.
  run_unfold; cbn. destruct (Web3.getNetwork _); reflexivity.
Qed.

(** A network query that fails does not make [connect()] fail. *)
Lemma C4_counterexample :
  Web3.getNetwork (Web3.answers Examples.world_network_down Web3.klaytn)
    = Throw (Error "could not detect network") /\
  isAvailable Examples.world_network_down (new Examples.world_network_down KAIKAS)
    = true /\
  let r := connect Examples.world_network_down
                   (new Examples.world_network_down KAIKAS) in
  completion r = Return (mkAccount "0xABC" "1000000000000000000") /\
  status (state (final r)) = CONNECTED /\
  network (state (final r)) = None /\
  error (state (final r)) = None /\
  trace r = [request_effect Web3.klaytn Web3.eth_requestAccounts;
             emit_effect (connect_event (mkAccount "0xABC" "1000000000000000000"))].
Proof. cbv. repeat split. Qed.

(** C4 (amended). [connect()] throws [NotInstalled], touching nothing,
    when the wallet is not available.  When it is available:
    whenever [connect()] throws, the state is [Error] with the message
    of the thrown error, the last thing emitted is an [error] event
    carrying that same error, and the cause is a rejected account
    request, a failed account query, an empty account list or a failed
    balance query; each of these causes makes it throw; and when none
    of them occurs [connect()] returns the account with the state
    [Connected], whatever the network query answers (a failed network
    query only leaves [network] null). *)
Theorem C4_connect_failure_channels :
  forall (w : Web3.World) (this : KaiaWalletService),
    let r := connect w this in
    let A := Web3.answers w (injected_of (walletProvider this)) in
    (isAvailable w this = false ->
       r = mkRun this [] (Throw (NotInstalled (walletProvider this)))) /\
    (isAvailable w this = true ->
       (forall e, completion r = Throw e ->
          status (state (final r)) = ERROR /\
          error (state (final r)) = Some (message e) /\
          (exists before, trace r = (before ++ [emit_effect (error_event e)])%list) /\
          (Web3.request A Web3.eth_requestAccounts = Throw e \/
           Web3.listAccounts A = Throw e \/
           (e = NoAccount /\
            (Web3.listAccounts A = Return None \/
             Web3.listAccounts A = Return (Some []))) \/
           (exists first rest cause,
              Web3.listAccounts A = Return (Some (first :: rest)) /\
              Web3.getBalance A (address_of first) = Throw cause /\
              e = BalanceFailed cause))) /\
       (forall e, Web3.request A Web3.eth_requestAccounts = Throw e ->
          completion r = Throw e) /\
       (Web3.request A Web3.eth_requestAccounts = Return tt ->
          (forall e, Web3.listAccounts A = Throw e -> completion r = Throw e) /\
          (Web3.listAccounts A = Return None \/
           Web3.listAccounts A = Return (Some []) ->
           completion r = Throw NoAccount) /\
          (forall first rest,
             Web3.listAccounts A = Return (Some (first :: rest)) ->
             (forall cause,
                Web3.getBalance A (address_of first) = Throw cause ->
                completion r = Throw (BalanceFailed cause)) /\
             (forall b,
                Web3.getBalance A (address_of first) = Return b ->
                let account0 := mkAccount (address_of first) (toString b) in
                completion r = Return account0 /\
                state (final r) =
                  mkWalletState CONNECTED (Some account0)
                    (match Web3.getNetwork A with
                     | Return chain => getNetworkByChainId chain
                     | Throw _ => None
                     end)
                    (provider (state this)) None /\
                trace r =
                  [request_effect (injected_of (walletProvider this))
                                  Web3.eth_requestAccounts;
                   emit_effect (connect_event account0)])))).
Proof.
  intros w [st h wl q nl]; cbn zeta.
  split.
  - unfold connect, isAvailable, bind, get, throw; cbn. intros ->. reflexivity.
  - intros Hav. unfold isAvailable in Hav; cbn [walletProvider] in Hav.
    destruct (available_window w q Hav) as [Hq [win [Hwin Hslot]]].
    unfold connect, bind, get, isAvailable; cbn [walletProvider final trace completion].
    rewrite Hav; cbn [negb].
    unfold try_catch, handleError, updateState, set_state, set_web3Provider, emit,
      getProvider, request, bind, get, put, ret, throw, effect, await, merge.
    destruct q; try congruence; clear Hq.
    all: cbn -[getBalance getNetwork]; rewrite Hwin;
      cbn -[getBalance getNetwork]; rewrite Hslot; cbn -[getBalance getNetwork].
    all: destruct (Web3.request _ Web3.eth_requestAccounts) as [[]|er] eqn:Hreq;
      cbn -[getBalance getNetwork].
    all: destruct (Web3.listAccounts _) as [[[|first rest]|]|el] eqn:Hl;
      cbn -[getBalance getNetwork].
    all: try (rewrite (getBalance_of_first w _ (mkWeb3Provider _) wl _ nl first rest Hl);
              cbn -[getBalance getNetwork];
              destruct (Web3.getBalance _ (address_of first)) as [b|eb] eqn:Hb;
              cbn -[getBalance getNetwork];
              try (rewrite getNetwork_connected; cbn)).
    all: repeat split; intros; same_completion; try reflexivity.
    all: try solve [ intuition congruence ].
    all: try solve [ exists []; reflexivity | eexists [_]; reflexivity ].
    all: solve [ eauto 12 ].
Qed.

Lemma C4_witness :
  isAvailable Examples.world_rejecting (new Examples.world_rejecting KAIKAS) = true /\
  completion (connect Examples.world_rejecting (new Examples.world_rejecting KAIKAS))
    = Throw Examples.user_rejected /\
  status (state (final (connect Examples.world_rejecting
                                (new Examples.world_rejecting KAIKAS)))) = ERROR /\
  error (state (final (connect Examples.world_rejecting
                               (new Examples.world_rejecting KAIKAS))))
    = Some "User rejected the request.".
Proof.
  destruct (C4_connect_failure_channels
              Examples.world_rejecting (new Examples.world_rejecting KAIKAS))
    as [_ H].
  destruct (H eq_refl) as [Hthrow [Hreject _]].
  pose proof (Hreject Examples.user_rejected eq_refl) as Hc.
  destruct (Hthrow Examples.user_rejected Hc) as [Hs [He _]].
  repeat split; assumption.
Defined.

(** The scenario of the specification: an available wallet whose
    session holds [0xABC] with 10^18 of the smallest unit. *)
Example connect_0xABC :
  let r := connect Examples.world_ok (new Examples.world_ok KAIKAS) in
  completion r = Return (mkAccount "0xABC" "1000000000000000000") /\
  state (final r) =
    mkWalletState CONNECTED (Some (mkAccount "0xABC" "1000000000000000000"))
      (Some DEFAULT_NETWORK) (Some KAIKAS) None.
Proof. cbv. split; reflexivity. Qed.

(* ================================================================= *)
(** ** switchNetwork *)

Lemma getNetworkByChainId_registered chainId0 :
  getNetworkByChainId chainId0 = None <-> (chainId0 <> 8217 /\ chainId0 <> 1001)%Z.
Proof.
  unfold getNetworkByChainId; cbn [map snd KAIA_NETWORKS find chainId].
  destruct (Z.eqb_spec 8217 chainId0) as [E1|N1].
  - split; [intros H; discriminate H | intros [H _]; congruence].
  - destruct (Z.eqb_spec 1001 chainId0) as [E2|N2].
    + split; [intros H; discriminate H | intros [_ H]; congruence].
    + split; [intros _; split; congruence | reflexivity].
Qed.

(** A service of the kind the code has no injected object for refuses
    [switchNetwork] with the error of [getProvider], whatever the
    chain. *)
Lemma C5_counterexample :
  getNetworkByChainId 999999 = None /\
  switchNetwork Examples.world_ok 999999 (new Examples.world_ok WALLET_CONNECT)
    = mkRun (new Examples.world_ok WALLET_CONNECT) []
            (Throw (UnsupportedWalletProvider WALLET_CONNECT)) /\
  UnsupportedWalletProvider WALLET_CONNECT <> UnsupportedNetwork 999999.
Proof.
  split; [reflexivity | split; [reflexivity | ]].
  intros H. cbv in H. discriminate H.
Qed.

(** [switchNetwork] of a Kaikas or MetaMask service where the global
    [window] exists, with the chain id of the message as [toString10]
    renders it. *)
Lemma switchNetwork_with_window :
  forall (w : Web3.World) (this : KaiaWalletService) (chainId0 : Z)
         (win : Web3.Window),
    walletProvider this <> WALLET_CONNECT ->
    Web3.window w = Some win ->
    let r := switchNetwork w chainId0 this in
    let obj := injected_of (walletProvider this) in
    let A := Web3.answers w obj in
    let switch := Web3.wallet_switchEthereumChain (hexChainId chainId0) in
    final r = this /\
    (getNetworkByChainId 999999 = None) /\
    (getNetworkByChainId chainId0 = None ->
       r = mkRun this [] (Throw (UnsupportedNetwork chainId0))) /\
    (forall network0 brand,
       getNetworkByChainId chainId0 = Some network0 ->
       match walletProvider this with
       | KAIKAS => Web3.window_klaytn win
       | _ => Web3.window_ethereum win
       end = Some brand ->
       let add := Web3.wallet_addEthereumChain (addChainParameter chainId0 network0) in
       (Web3.request A switch = Return tt ->
          trace r = [request_effect obj switch] /\ completion r = Return tt) /\
       (forall e, Web3.request A switch = Throw e ->
          (code e = Some 4902%Z ->
             trace r = [request_effect obj switch; request_effect obj add] /\
             completion r = Web3.request A add) /\
          (code e <> Some 4902%Z ->
             trace r = [request_effect obj switch] /\ completion r = Throw e))).
Proof.
  intros w [st h wl q nl] chainId0 win Hq Hwin; cbn zeta; cbn [walletProvider] in *.
  unfold switchNetwork, getProvider, request, try_catch, bind, get, ret, throw,
    effect, await.
  destruct q; try congruence; clear Hq; cbn; rewrite Hwin; cbn.
  all: split;
    [ destruct (getNetworkByChainId chainId0);
      [ repeat (break_match; cbn; try reflexivity) | reflexivity ] | ].
  all: split; [reflexivity | ].
  all: split; [ intros ->; reflexivity | ].
  all: intros network0 brand -> ->; cbn.
  all: split;
    [ intros ->; cbn; split; reflexivity
    | intros e ->; cbn; split;
      [ intros ->; cbn;
        destruct (Web3.request _ (Web3.wallet_addEthereumChain _)); split; reflexivity
      | intros Hc; destruct (code e) as [[|c|c]|]; try (split; reflexivity);
        repeat (break_match; cbn; try (split; reflexivity));
        exfalso; apply Hc; reflexivity ] ].
Qed.

(** C5 (amended). A service of a kind other than Kaikas and MetaMask
    fails in [switchNetwork] with the error of [getProvider], whatever
    the chain, and sends nothing.  For a service of kind Kaikas or
    MetaMask, where the global [window] exists: [switchNetwork] never
    changes the service; a chain that is not registered (every chain
    but 8217 and 1001, so 999999) makes it throw the
    [UnsupportedNetwork] error, whose message ends with the chain id
    (in decimal digits for a safe integer), with no request sent; for a
    registered chain, with the injected object present, the first
    request is the switch-chain request with the hexadecimal chain id;
    if it is answered, nothing else happens; if it is rejected with
    code 4902 the add-chain request built from the registered entry
    follows and its answer is the outcome; if it is rejected otherwise
    that rejection is thrown as it is. *)
Theorem C5_switchNetwork :
  forall (w : Web3.World) (this : KaiaWalletService) (chainId0 : Z),
    let r := switchNetwork w chainId0 this in
    let obj := injected_of (walletProvider this) in
    let A := Web3.answers w obj in
    let switch := Web3.wallet_switchEthereumChain (hexChainId chainId0) in
    (walletProvider this = WALLET_CONNECT ->
       r = mkRun this [] (Throw (UnsupportedWalletProvider WALLET_CONNECT))) /\
    (forall win : Web3.Window,
       walletProvider this <> WALLET_CONNECT ->
       Web3.window w = Some win ->
       final r = this /\
       getNetworkByChainId 999999 = None /\
       (getNetworkByChainId chainId0 = None ->
          final r = this /\
          trace r = [] /\
          (exists rendering,
             completion r
             = Throw (Error ("지원하지 않는 네트워크입니다: " ++ rendering))) /\
          (safe_integer chainId0 ->
             completion r = Throw (UnsupportedNetwork chainId0))) /\
       (forall network0 brand,
          getNetworkByChainId chainId0 = Some network0 ->
          match walletProvider this with
          | KAIKAS => Web3.window_klaytn win
          | _ => Web3.window_ethereum win
          end = Some brand ->
          let add :=
            Web3.wallet_addEthereumChain (addChainParameter chainId0 network0) in
          (Web3.request A switch = Return tt ->
             trace r = [request_effect obj switch] /\ completion r = Return tt) /\
          (forall e, Web3.request A switch = Throw e ->
             (code e = Some 4902%Z ->
                trace r = [request_effect obj switch; request_effect obj add] /\
                completion r = Web3.request A add) /\
             (code e <> Some 4902%Z ->
                trace r = [request_effect obj switch] /\ completion r = Throw e)))).
Proof.
  intros w this chainId0; cbn zeta. split.
  - destruct this as [st h wl q nl]; cbn [walletProvider]. intros ->. reflexivity.
  - intros win Hq Hwin.
    destruct (switchNetwork_with_window w this chainId0 win Hq Hwin)
      as (Hf & H9 & Hnone & Hsome).
    split; [exact Hf | split; [exact H9 | split; [ | exact Hsome]]].
    intros Hn. rewrite (Hnone Hn). cbn.
    split; [reflexivity | split; [reflexivity | split]].
    + eexists. reflexivity.
    + intros _. reflexivity.
Qed.

Lemma C5_witness :
  walletProvider (new Examples.world_unknown_chain KAIKAS) <> WALLET_CONNECT /\
  Web3.window Examples.world_unknown_chain = Some Examples.window_both /\
  trace (switchNetwork Examples.world_unknown_chain 1001
           (new Examples.world_unknown_chain KAIKAS))
  = [request_effect Web3.klaytn (Web3.wallet_switchEthereumChain "0x3e9");
     request_effect Web3.klaytn
       (Web3.wallet_addEthereumChain
          (Web3.mkAddChain "0x3e9" "Kaia Testnet Kairos"
             ["https://public-en-kairos.node.kaia.io"]
             (Some ["https://kairos.kaiascan.io"])))] /\
  completion (switchNetwork Examples.world_unknown_chain 1001
                (new Examples.world_unknown_chain KAIKAS)) = Return tt.
Proof.
  assert (Hk : walletProvider (new Examples.world_unknown_chain KAIKAS)
               <> WALLET_CONNECT) by discriminate.
  split; [exact Hk | split; [reflexivity | ]].
  destruct (C5_switchNetwork Examples.world_unknown_chain
              (new Examples.world_unknown_chain KAIKAS) 1001) as [_ Hwin].
  destruct (Hwin Examples.window_both Hk eq_refl) as (_ & _ & _ & H).
  destruct (H (mkNetwork 1001 "Kaia Testnet Kairos"
                 "https://public-en-kairos.node.kaia.io"
                 (Some "https://kairos.kaiascan.io")) true eq_refl eq_refl)
    as [_ Hrej].
  destruct (Hrej Examples.unrecognized_chain eq_refl) as [Hadd _].
  exact (Hadd eq_refl).
Defined.

(* ================================================================= *)
(** ** getBalance *)

Lemma parse_toString n : parse_decimal (toString n) = Some n.
Proof.
  unfold parse_decimal, toString.
  rewrite DecimalString.NilEmpty.usu. cbn.
  now rewrite DecimalN.Unsigned.of_to.
Qed.

(** With a session that has no account, [getBalance()] does not throw
    the [NoAccount] error as it is: the [catch] of [getBalance] turns
    it into a balance-query failure that carries its message. *)
Lemma C8_counterexample :
  web3Provider Examples.connected = Some (mkWeb3Provider Web3.klaytn) /\
  Web3.listAccounts (Web3.answers Examples.world_no_account Web3.klaytn)
    = Return (Some []) /\
  completion (getBalance Examples.world_no_account None Examples.connected)
    = Throw (BalanceFailed NoAccount) /\
  completion (getBalance Examples.world_no_account None Examples.connected)
    <> Throw NoAccount.
Proof.
  split; [reflexivity | split; [reflexivity | split; [reflexivity | ]]].
  intros H. cbv in H. discriminate H.
Qed.

(** C8 (amended). [getBalance] only reads.  Without a provider handle
    (so in every reachable state with [status = Disconnected]) it
    throws [NotConnected].  With a handle: when the address is omitted
    or empty it asks for the balance of the first account of the
    session, and a session without accounts makes it throw the
    balance-query failure that wraps the [NoAccount] message; a given
    address is used as it is; a failed query is wrapped the same way;
    and whatever it returns is the decimal rendering of the balance the
    provider answered, in the unit of the provider. *)
Theorem C8_getBalance :
  forall (w : Web3.World) (address0 : option string) (this : KaiaWalletService),
    let r := getBalance w address0 this in
    final r = this /\ trace r = [] /\
    (web3Provider this = None -> completion r = Throw NotConnected) /\
    (reachable this -> status (state this) = DISCONNECTED ->
       completion r = Throw NotConnected) /\
    (forall h, web3Provider this = Some h ->
       let A := Web3.answers w (inner h) in
       (truthy address0 = false ->
          (Web3.listAccounts A = Return None \/
           Web3.listAccounts A = Return (Some []) ->
           completion r = Throw (BalanceFailed NoAccount)) /\
          (forall e, Web3.listAccounts A = Throw e ->
             completion r = Throw (BalanceFailed e)) /\
          (forall first rest,
             Web3.listAccounts A = Return (Some (first :: rest)) ->
             completion r =
               match Web3.getBalance A (address_of first) with
               | Return b => Return (toString b)
               | Throw cause => Throw (BalanceFailed cause)
               end)) /\
       (forall a, address0 = Some a -> a <> "" ->
          completion r =
            match Web3.getBalance A a with
            | Return b => Return (toString b)
            | Throw cause => Throw (BalanceFailed cause)
            end) /\
       (forall str, completion r = Return str ->
          exists (target : string) (b : N),
            Web3.getBalance A target = Return b /\
            str = toString b /\ parse_decimal str = Some b)).
Proof.
  intros w address0 this; cbn zeta.
  destruct (getBalance_reads w address0 this) as [Hf Ht].
  split; [exact Hf | split; [exact Ht | ]].
  assert (Hnone : web3Provider this = None ->
                  completion (getBalance w address0 this) = Throw NotConnected).
  { destruct this as [st h wl q nl]; cbn. intros ->. reflexivity. }
  split; [exact Hnone | split].
  - intros Hr Hs. apply Hnone.
    pose proof (reachable_consistent this Hr) as Hc.
    unfold consistent in Hc. rewrite Hs in Hc. apply Hc.
  - destruct this as [st h0 wl q nl]; cbn [web3Provider].
    intros h ->. run_unfold; cbn.
    split; [ | split].
    + intros ->; cbn. split; [ | split].
      * intros [-> | ->]; reflexivity.
      * intros e ->; reflexivity.
      * intros first rest ->; cbn.
        destruct (Web3.getBalance _ _); reflexivity.
    + intros a -> Ha. destruct a as [|c0 s0]; [congruence | cbn].
      destruct (Web3.getBalance _ _); reflexivity.
    + intros str.
      destruct (truthy address0); cbn.
      * destruct (Web3.getBalance _ _) as [b|e] eqn:Hb; cbn; intros H;
          same_completion.
        exists (or_default address0 ""), b.
        split; [exact Hb | split; [reflexivity | apply parse_toString]].
      * destruct (Web3.listAccounts _) as [[[|first rest]|]|e]; cbn;
          try (intros H; discriminate H).
        destruct (Web3.getBalance _ _) as [b|e] eqn:Hb; cbn; intros H;
          same_completion.
        exists (address_of first), b.
        split; [exact Hb | split; [reflexivity | apply parse_toString]].
Qed.

Lemma C8_witness :
  reachable (new Examples.world_ok KAIKAS) /\
  status (state (new Examples.world_ok KAIKAS)) = DISCONNECTED /\
  completion (getBalance Examples.world_ok None (new Examples.world_ok KAIKAS))
    = Throw NotConnected.
Proof.
  assert (R : reachable (new Examples.world_ok KAIKAS)) by apply reachable_new.
  split; [exact R | split; [reflexivity | ]].
  destruct (C8_getBalance Examples.world_ok None (new Examples.world_ok KAIKAS))
    as (_ & _ & _ & H & _).
  exact (H R eq_refl).
Defined.

(* ================================================================= *)
(** ** A failed connect keeps the provider handle *)

Lemma wrapped_not_NotConnected cause :
  BalanceFailed cause <> NotConnected /\
  TransactionFailed cause <> NotConnected /\
  SigningFailed cause <> NotConnected.
Proof.
  unfold BalanceFailed, TransactionFailed, SigningFailed, NotConnected, Error.
  repeat split; intros H; cbn in H; discriminate H.
Qed.

Lemma getBalance_with_handle w a this h :
  web3Provider this = Some h ->
  completion (getBalance w a this) <> Throw NotConnected.
Proof.
  destruct this as [st h0 wl q nl]; cbn [web3Provider]; intros ->.
  destruct (wrapped_not_NotConnected NoAccount) as [HN _].
  run_unfold; cbn.
  run_cases ltac:(first [ discriminate
                        | intros H; inversion H as [H'];
                          eapply (wrapped_not_NotConnected _); exact H' ]).
  all: first [ discriminate
             | intros H; inversion H as [H'];
               eapply (wrapped_not_NotConnected _); exact H' ].
Qed.

Lemma sendTransaction_with_handle w params this h :
  web3Provider this = Some h ->
  completion (sendTransaction w params this) <> Throw NotConnected.
Proof.
  destruct this as [st h0 wl q nl]; cbn [web3Provider]; intros ->.
  run_unfold; cbn.
  run_cases ltac:(first [ discriminate
                        | intros H; inversion H as [H'];
                          eapply (wrapped_not_NotConnected _); exact H' ]).
  all: first [ discriminate
             | intros H; inversion H as [H'];
               eapply (wrapped_not_NotConnected _); exact H' ].
Qed.

Lemma signMessage_with_handle w msg this h :
  web3Provider this = Some h ->
  completion (signMessage w msg this) <> Throw NotConnected.
Proof.
  destruct this as [st h0 wl q nl]; cbn [web3Provider]; intros ->.
  run_unfold; cbn.
  run_cases ltac:(first [ discriminate
                        | intros H; inversion H as [H'];
                          eapply (wrapped_not_NotConnected _); exact H' ]).
  all: first [ discriminate
             | intros H; inversion H as [H'];
               eapply (wrapped_not_NotConnected _); exact H' ].
Qed.

(** The operations that run the disconnect path. *)
Lemma handle_cleared_only_by_disconnect w o this h :
  web3Provider this = Some h ->
  web3Provider (final (run w o this)) = None ->
  o = op_disconnect \/
  o = op_notify native_disconnect \/
  o = op_notify (native_accountsChanged []).
Proof.
  destruct this as [st h0 wl q nl]; cbn [web3Provider]; intros ->.
  destruct o as [ | | | | ad | pa | m | c | [accs | c | ]].
  2: intros _; left; reflexivity.
  8: destruct accs as [|a0 accs]; [intros _; right; right; reflexivity | ].
  10: intros _; right; left; reflexivity.
  all: run_unfold; cbn.
  all: run_cases ltac:(try discriminate).
  all: discriminate.
Qed.

Lemma connect_outcome w this :
  isAvailable w this = true ->
  match completion (connect w this) with
  | Return _ => status (state (final (connect w this))) = CONNECTED
  | Throw _ =>
      status (state (final (connect w this))) = ERROR /\
      web3Provider (final (connect w this))
        = Some (mkWeb3Provider (injected_of (walletProvider this)))
  end.
Proof.
  destruct this as [st h wl q nl].
  intros Hav. unfold isAvailable in Hav; cbn [walletProvider] in Hav.
  destruct (available_window w q Hav) as [Hq [win [Hwin Hslot]]].
  unfold connect, bind, get, isAvailable; cbn [walletProvider final trace completion].
  rewrite Hav; cbn [negb].
  unfold try_catch, handleError, updateState, set_state, set_web3Provider, emit,
    getProvider, request, bind, get, put, ret, throw, effect, await, merge.
  destruct q; try congruence; clear Hq.
  all: cbn -[getBalance getNetwork]; rewrite Hwin;
    cbn -[getBalance getNetwork]; rewrite Hslot; cbn -[getBalance getNetwork].
  all: destruct (Web3.request _ Web3.eth_requestAccounts) as [[]|er];
    cbn -[getBalance getNetwork].
  all: try (destruct (Web3.listAccounts _) as [[[|first rest]|]|el] eqn:Hl;
    cbn -[getBalance getNetwork]).
  all: try (rewrite (getBalance_of_first w _ (mkWeb3Provider _) wl _ nl first rest Hl);
            cbn -[getBalance getNetwork];
            destruct (Web3.getBalance _ (address_of first)) as [b|eb];
            cbn -[getBalance getNetwork];
            try (rewrite getNetwork_connected; cbn)).
  all: first [ reflexivity | split; reflexivity ].
Qed.

Lemma connect_failed_state w this e :
  isAvailable w this = true ->
  completion (connect w this) = Throw e ->
  status (state (final (connect w this))) = ERROR /\
  web3Provider (final (connect w this))
    = Some (mkWeb3Provider (injected_of (walletProvider this))).
Proof.
  intros Hav Hc. pose proof (connect_outcome w this Hav) as H.
  rewrite Hc in H. exact H.
Qed.

(** C9. When [connect()] of an available wallet throws, the service is
    left with [status = Error] and with the provider handle set.  From
    there [getBalance], [sendTransaction] and [signMessage] never throw
    [NotConnected]; [getAccount] returns the first account of the
    session with its balance whenever the provider answers both
    queries, although the status is not [Connected]; no operation but
    [disconnect()] (called, or run by the native [disconnect] or by an
    empty native [accountsChanged]) clears the handle, and
    [disconnect()] does. *)
Theorem C9_failed_connect_keeps_handle :
  forall (w : Web3.World) (this : KaiaWalletService) (e : JsError),
    isAvailable w this = true ->
    completion (connect w this) = Throw e ->
    let this' := final (connect w this) in
    let obj := injected_of (walletProvider this) in
    status (state this') = ERROR /\
    web3Provider this' = Some (mkWeb3Provider obj) /\
    (forall w' a, completion (getBalance w' a this') <> Throw NotConnected) /\
    (forall w' params,
       completion (sendTransaction w' params this') <> Throw NotConnected) /\
    (forall w' msg, completion (signMessage w' msg this') <> Throw NotConnected) /\
    (forall w' first rest b,
       Web3.listAccounts (Web3.answers w' obj) = Return (Some (first :: rest)) ->
       Web3.getBalance (Web3.answers w' obj) (address_of first) = Return b ->
       completion (getAccount w' this')
         = Return (Some (mkAccount (address_of first) (toString b))) /\
       status (state (final (getAccount w' this'))) <> CONNECTED) /\
    (forall w' o,
       web3Provider (final (run w' o this')) = None ->
       o = op_disconnect \/
       o = op_notify native_disconnect \/
       o = op_notify (native_accountsChanged [])) /\
    web3Provider (final (disconnect this')) = None.
Proof.
  intros w this e Hav Hthrow; cbn zeta.
  destruct (connect_failed_state w this e Hav Hthrow) as [Hs Hh].
  split; [exact Hs | split; [exact Hh | ]].
  split; [intros; eapply getBalance_with_handle; exact Hh | ].
  split; [intros; eapply sendTransaction_with_handle; exact Hh | ].
  split; [intros; eapply signMessage_with_handle; exact Hh | ].
  split; [ | split].
  - intros w' first rest b Hl Hb.
    destruct (getAccount_reads w' (final (connect w this))) as [-> _].
    split; [ | rewrite Hs; discriminate].
    destruct (final (connect w this)) as [st' h' wl' q' nl'].
    cbn [web3Provider] in Hh. subst h'.
    unfold getAccount, try_catch, bind, get, ret, await;
      cbn -[getBalance]. rewrite Hl; cbn -[getBalance].
    rewrite (getBalance_of_first w' st' (mkWeb3Provider _) wl' q' nl' first rest Hl).
    cbn. rewrite Hb. reflexivity.
  - intros w' o. eapply handle_cleared_only_by_disconnect. exact Hh.
  - destruct (final (connect w this)); reflexivity.
Qed.

Lemma C9_witness :
  isAvailable Examples.world_rejecting (new Examples.world_rejecting KAIKAS) = true /\
  completion (connect Examples.world_rejecting (new Examples.world_rejecting KAIKAS))
    = Throw Examples.user_rejected /\
  completion (getAccount Examples.world_ok
                (final (connect Examples.world_rejecting
                                (new Examples.world_rejecting KAIKAS))))
    = Return (Some (mkAccount "0xABC" "1000000000000000000")) /\
  status (state (final (getAccount Examples.world_ok
                (final (connect Examples.world_rejecting
                                (new Examples.world_rejecting KAIKAS))))))
    <> CONNECTED.
Proof.
  split; [reflexivity | split; [reflexivity | ]].
  destruct (C9_failed_connect_keeps_handle
              Examples.world_rejecting (new Examples.world_rejecting KAIKAS)
              Examples.user_rejected eq_refl eq_refl)
    as (_ & _ & _ & _ & _ & H & _).
  exact (H Examples.world_ok (Web3.entry_string "0xABC") []
           1000000000000000000%N eq_refl eq_refl).
Defined.

(* ================================================================= *)
(** ** selectWallet *)

(** C7. [selectWallet] throws [UnsupportedProvider], touching nothing,
    when no wallet is registered under the kind; throws [Unavailable],
    touching nothing, when the registered wallet is not available;
    otherwise it returns the reference to the registered wallet and
    leaves it as the current one, the wallets themselves untouched. *)
Theorem C7_selectWallet :
  forall (w : Web3.World) (p : WalletProvider) (this : Adapter.WalletAdapter),
    let r := Adapter.selectWallet w p this in
    (Adapter.Map_get p (Adapter.wallets this) = None ->
       r = mkRun this [] (Throw (Adapter.UnsupportedProvider p))) /\
    (forall wallet0,
       Adapter.Map_get p (Adapter.wallets this) = Some wallet0 ->
       isAvailable w wallet0 = false ->
       r = mkRun this [] (Throw (Adapter.Unavailable p))) /\
    (forall wallet0,
       Adapter.Map_get p (Adapter.wallets this) = Some wallet0 ->
       isAvailable w wallet0 = true ->
       completion r = Return p /\
       trace r = [] /\
       Adapter.getCurrentWallet (final r) = Some p /\
       Adapter.wallets (final r) = Adapter.wallets this /\
       Adapter.Map_get p (Adapter.wallets (final r)) = Some wallet0) /\
    Adapter.UnsupportedProvider p <> Adapter.Unavailable p.
Proof.
  intros w p this; cbn zeta.
  unfold Adapter.selectWallet, bind, get, put, ret, throw; cbn.
  split; [ | split; [ | split]].
  - intros ->. reflexivity.
  - intros wallet0 -> ->. reflexivity.
  - intros wallet0 Hg Ha. rewrite Hg, Ha. cbn. repeat split. exact Hg.
  - destruct p; intros H; cbv in H; discriminate H.
Qed.

Lemma C7_witness :
  Adapter.Map_get WALLET_CONNECT (Adapter.wallets (Adapter.new Examples.world_ok))
    = None /\
  Adapter.selectWallet Examples.world_ok WALLET_CONNECT
    (Adapter.new Examples.world_ok)
  = mkRun (Adapter.new Examples.world_ok) []
          (Throw (Adapter.UnsupportedProvider WALLET_CONNECT)).
Proof.
  split; [reflexivity | ].
  destruct (C7_selectWallet Examples.world_ok WALLET_CONNECT
              (Adapter.new Examples.world_ok)) as [H _].
  exact (H eq_refl).
Defined.

(* ================================================================= *)
(** ** The registry never changes *)

Import Policy.

Ltac adapter_unfold :=
  unfold Adapter.run, Adapter.autoConnect, Adapter.disconnectAll,
    Adapter.selectWallet, Adapter.getAvailableWallets, Adapter.call,
    Adapter.Map_keys, Adapter.includes, Adapter.priority, Adapter.getCurrentWallet,
    void, bind, try_catch, ret, throw, get, put, effect, await in *.

Lemma connect_frame w this :
  walletProvider (final (connect w this)) = walletProvider this.
Proof.
  destruct (run_frame w op_connect this) as [H _].
  unfold run, void in H. destruct (connect w this) as [f t [a|e]]; exact H.
Qed.

Lemma new_registered w : registered (Adapter.new w).
Proof.
  exists (new w KAIKAS), (new w METAMASK). repeat split.
Qed.

Lemma call_registered {A} h (m : Service.Method A) this :
  (forall s, walletProvider (final (m s)) = walletProvider s) ->
  registered this -> registered (final (Adapter.call h m this)).
Proof.
  intros Hm (k & m0 & Hw & Hk & Hm0).
  destruct this as [ws cur]; cbn in Hw; subst ws.
  unfold Adapter.call; destruct h; cbn.
  - exists (final (m k)), m0. rewrite Hm. repeat split; assumption.
  - exists k, (final (m m0)). rewrite Hm. repeat split; assumption.
  - exists k, m0. repeat split; assumption.
Qed.

Lemma autoConnect_registered w this :
  registered this -> registered (final (Adapter.autoConnect w this)).
Proof.
  intros (k & m & Hw & Hk & Hm).
  destruct this as [ws cur]; cbn in Hw; subst ws.
  pose proof (connect_frame w k) as Fk. pose proof (connect_frame w m) as Fm.
  rewrite Hk in Fk. rewrite Hm in Fm.
  unfold Adapter.autoConnect, Adapter.getAvailableWallets, isAvailable,
    bind, get, ret; cbn -[connect].
  rewrite Hk, Hm.
  destruct (isAvailable_for w KAIKAS) eqn:Ak;
    destruct (isAvailable_for w METAMASK) eqn:Am; cbn -[connect].
  all: adapter_unfold; unfold isAvailable; cbn -[connect];
    rewrite ?Hk, ?Hm, ?Ak, ?Am; cbn -[connect].
  all: try (destruct (connect w k) as [fk tk [ak|ek]]; cbn -[connect] in Fk |- *).
  all: unfold isAvailable; rewrite ?Hk, ?Hm, ?Ak, ?Am; cbn -[connect].
  all: try (destruct (connect w m) as [fm tm [am|em]]; cbn -[connect] in Fm |- *).
  all: solve [ eexists _, _; split; [reflexivity | split; assumption] ].
Qed.

Lemma disconnectAll_registered this :
  registered this -> registered (final (Adapter.disconnectAll this)).
Proof.
  intros (k & m & Hw & Hk & Hm).
  destruct this as [ws cur]; cbn in Hw; subst ws.
  destruct k as [[sk ak nk pk ek] hk wlk qk nlk].
  destruct m as [[sm am nm pm em] hm wlm qm nlm].
  cbn in Hk, Hm; subst qk qm.
  adapter_unfold; cbn. adapter_unfold; unfold getState; cbn.
  destruct sk; cbn; destruct sm; cbn.
  all: eexists _, _; split; [reflexivity | split; reflexivity].
Qed.

Lemma run_registered w o this :
  registered this -> registered (final (Adapter.run w o this)).
Proof.
  intros H. destruct o as [p | | | h so]; cbn [Adapter.run].
  - destruct H as (k & m & Hw & Hk & Hm).
    destruct this as [ws cur]; cbn in Hw; subst ws.
    adapter_unfold; destruct p; cbn.
    all: try (destruct (negb _); cbn).
    all: eexists _, _; split; [reflexivity | split; assumption].
  - pose proof (autoConnect_registered w this H) as H'.
    unfold void. destruct (Adapter.autoConnect w this) as [f t [a|e]]; exact H'.
  - apply disconnectAll_registered, H.
  - apply call_registered; [ | exact H].
    intros s. apply (run_frame w so s).
Qed.

Lemma reachable_registered this : Adapter.reachable this -> registered this.
Proof.
  induction 1 as [w | w o this _ IH].
  - apply new_registered.
  - apply run_registered, IH.
Qed.

(* ================================================================= *)
(** ** The wallets of an adapter are reachable services *)

Lemma final_void {S T A} (m : M S T A) (s : S) : final (void m s) = final (m s).
Proof. unfold void. destruct (m s) as [f t [a|e]]; reflexivity. Qed.

Lemma two_backends_reachable k m cur :
  reachable k -> reachable m ->
  backends_reachable (Adapter.mkAdapter [(KAIKAS, k); (METAMASK, m)] cur).
Proof.
  intros Rk Rm p wallet0. cbn.
  destruct p; cbn; intros H; inversion H; subst; assumption.
Qed.

Lemma backends_of_registered this :
  registered this -> backends_reachable this ->
  exists k m, Adapter.wallets this = [(KAIKAS, k); (METAMASK, m)] /\
              walletProvider k = KAIKAS /\ walletProvider m = METAMASK /\
              reachable k /\ reachable m.
Proof.
  intros (k & m & Hw & Hk & Hm) Hb.
  exists k, m. repeat split; try assumption.
  - apply (Hb KAIKAS). rewrite Hw. reflexivity.
  - apply (Hb METAMASK). rewrite Hw. reflexivity.
Qed.

Lemma autoConnect_backends w this :
  registered this -> backends_reachable this ->
  backends_reachable (final (Adapter.autoConnect w this)).
Proof.
  intros Hreg Hb.
  destruct (backends_of_registered this Hreg Hb) as (k & m & Hw & Hk & Hm & Rk & Rm).
  destruct this as [ws cur]; cbn in Hw; subst ws.
  pose proof (reachable_run w op_connect k Rk) as Fk.
  pose proof (reachable_run w op_connect m Rm) as Fm.
  unfold run in Fk, Fm. rewrite final_void in Fk, Fm.
  unfold Adapter.autoConnect, Adapter.getAvailableWallets, isAvailable,
    bind, get, ret; cbn -[connect].
  rewrite Hk, Hm.
  destruct (isAvailable_for w KAIKAS) eqn:Ak;
    destruct (isAvailable_for w METAMASK) eqn:Am; cbn -[connect].
  all: adapter_unfold; unfold isAvailable; cbn -[connect];
    rewrite ?Hk, ?Hm, ?Ak, ?Am; cbn -[connect].
  all: try (destruct (connect w k) as [fk tk [ak|ek]]; cbn -[connect] in Fk |- *).
  all: unfold isAvailable; rewrite ?Hk, ?Hm, ?Ak, ?Am; cbn -[connect].
  all: try (destruct (connect w m) as [fm tm [am|em]]; cbn -[connect] in Fm |- *).
  all: apply two_backends_reachable; assumption.
Qed.

Lemma disconnectAll_backends this :
  registered this -> backends_reachable this ->
  backends_reachable (final (Adapter.disconnectAll this)).
Proof.
  intros Hreg Hb.
  destruct (backends_of_registered this Hreg Hb) as (k & m & Hw & Hk & Hm & Rk & Rm).
  destruct this as [ws cur]; cbn in Hw; subst ws.
  pose proof (reachable_run Examples.world_ok op_disconnect k Rk) as Fk.
  pose proof (reachable_run Examples.world_ok op_disconnect m Rm) as Fm.
  destruct k as [[sk ak nk pk ek] hk wlk qk nlk].
  destruct m as [[sm am nm pm em] hm wlm qm nlm].
  adapter_unfold; cbn. adapter_unfold; unfold getState; cbn.
  destruct sk; cbn; destruct sm; cbn.
  all: apply two_backends_reachable; first [ exact Rk | exact Rm | exact Fk | exact Fm ].
Qed.

Lemma run_backends w o this :
  registered this -> backends_reachable this ->
  backends_reachable (final (Adapter.run w o this)).
Proof.
  intros Hreg Hb. destruct o as [p | | | h so]; cbn [Adapter.run].
  - rewrite final_void.
    assert (E : Adapter.wallets (final (Adapter.selectWallet w p this))
                = Adapter.wallets this).
    { unfold Adapter.selectWallet, bind, get, put, ret, throw; cbn.
      destruct (Adapter.Map_get p (Adapter.wallets this)); [ | reflexivity].
      destruct (negb _); reflexivity. }
    intros q wallet0. rewrite E. apply Hb.
  - rewrite final_void. apply autoConnect_backends; assumption.
  - apply disconnectAll_backends; assumption.
  - destruct (backends_of_registered this Hreg Hb)
      as (k & m & Hw & Hk & Hm & Rk & Rm).
    destruct this as [ws cur]; cbn in Hw; subst ws.
    unfold Adapter.call; destruct h; cbn -[run].
    all: apply two_backends_reachable; try assumption.
    all: apply reachable_run; assumption.
Qed.

Lemma reachable_backends this :
  Adapter.reachable this -> backends_reachable this.
Proof.
  induction 1 as [w | w o this Hr IH].
  - apply two_backends_reachable; apply reachable_new.
  - apply run_backends; [apply reachable_registered, Hr | exact IH].
Qed.

(* ================================================================= *)
(** ** autoConnect *)

(** C2. On every adapter the code can build, [autoConnect()] returns
    without throwing, and what it returns is the first wallet, in the
    order Kaikas, MetaMask, WalletConnect restricted to the available
    wallets, whose [connect()] succeeds, or null when there is none.
    With no wallet available it returns null and does nothing.  The
    wallet it returns is available, is the current wallet and is
    [Connected].  When it returns null every available wallet was
    tried and is left in [Error].  With Kaikas and MetaMask both
    available, Kaikas failing and MetaMask succeeding, it returns
    MetaMask, connected, and the failure of Kaikas is only logged. *)
Theorem C2_autoConnect :
  forall (w : Web3.World) (this : Adapter.WalletAdapter),
    Adapter.reachable this ->
    let r := Adapter.autoConnect w this in
    let available := Adapter.getAvailableWallets w this in
    completion r = Return (first_connecting w this) /\
    (available = [] -> r = mkRun this [] (Return None)) /\
    (forall h, completion r = Return (Some h) ->
       In h available /\
       Adapter.getCurrentWallet (final r) = Some h /\
       status_of (final r) h = Some CONNECTED) /\
    (completion r = Return None ->
       forall p, In p available ->
         connects w this p = false /\ status_of (final r) p = Some ERROR) /\
    (available = [KAIKAS; METAMASK] ->
     connects w this KAIKAS = false ->
     connects w this METAMASK = true ->
       completion r = Return (Some METAMASK) /\
       status_of (final r) METAMASK = Some CONNECTED /\
       status_of (final r) KAIKAS = Some ERROR /\
       exists e, In (Adapter.console_warn "kaikas 연결 실패:" e) (trace r)).
Proof.
  intros w this Hreach; cbn zeta.
  destruct (reachable_registered this Hreach) as (k & m & Hw & Hk & Hm).
  destruct this as [ws cur]; cbn in Hw; subst ws.
  pose proof (connect_outcome w k) as Ok. pose proof (connect_outcome w m) as Om.
  unfold first_connecting, connects, status_of.
  unfold Adapter.autoConnect, Adapter.getAvailableWallets, isAvailable in *.
  unfold bind, get, ret; cbn -[connect].
  rewrite Hk, Hm in *.
  destruct (isAvailable_for w KAIKAS) eqn:Ak;
    destruct (isAvailable_for w METAMASK) eqn:Am; cbn -[connect].
  all: adapter_unfold; unfold isAvailable; cbn -[connect];
    rewrite ?Hk, ?Hm, ?Ak, ?Am; cbn -[connect].
  all: try (specialize (Ok eq_refl)); try (specialize (Om eq_refl)).
  all: try (destruct (connect w k) as [fk tk [ak|ek]] eqn:Ek;
            cbn -[connect] in Ok |- *).
  all: unfold isAvailable; rewrite ?Hk, ?Hm, ?Ak, ?Am; cbn -[connect].
  all: try (destruct (connect w m) as [fm tm [am|em]] eqn:Em;
            cbn -[connect] in Om |- *).
  all: repeat split; intros; same_completion; try discriminate.
  all: cbn -[connect] in *.
  all: repeat match goal with
         | H : _ \/ _ |- _ => destruct H
         | H : False |- _ => destruct H
         | H : _ /\ _ |- _ => destruct H
         end; subst.
  all: cbn -[connect] in *; rewrite ?Ek, ?Em in *; cbn -[connect] in *.
  all: try congruence; try tauto.
  all: solve [ eexists; apply in_or_app; right; left; reflexivity ].
Qed.

Lemma C2_witness :
  Adapter.reachable (Adapter.new Examples.world_kaikas_rejecting) /\
  completion (Adapter.autoConnect Examples.world_kaikas_rejecting
                (Adapter.new Examples.world_kaikas_rejecting))
    = Return (Some METAMASK) /\
  status_of (final (Adapter.autoConnect Examples.world_kaikas_rejecting
                      (Adapter.new Examples.world_kaikas_rejecting))) METAMASK
    = Some CONNECTED /\
  status_of (final (Adapter.autoConnect Examples.world_kaikas_rejecting
                      (Adapter.new Examples.world_kaikas_rejecting))) KAIKAS
    = Some ERROR.
Proof.
  assert (R : Adapter.reachable (Adapter.new Examples.world_kaikas_rejecting))
    by apply Adapter.reachable_new.
  split; [exact R | ].
  destruct (C2_autoConnect Examples.world_kaikas_rejecting
              (Adapter.new Examples.world_kaikas_rejecting) R)
    as (_ & _ & _ & _ & H).
  destruct (H eq_refl eq_refl eq_refl) as (H1 & H2 & H3 & _).
  repeat split; assumption.
Defined.

(** With no wallet installed [autoConnect()] returns null. *)
Example autoConnect_no_wallet :
  Adapter.autoConnect Examples.world_no_wallet (Adapter.new Examples.world_no_wallet)
  = mkRun (Adapter.new Examples.world_no_wallet) [] (Return None).
Proof. reflexivity. Qed.

(* ================================================================= *)
(** ** WalletConnect is in the priority list only *)

Lemma available_registered w this :
  registered this ->
  forall p, In p (Adapter.getAvailableWallets w this) -> p = KAIKAS \/ p = METAMASK.
Proof.
  intros (k & m & Hw & Hk & Hm) p.
  destruct this as [ws cur]; cbn in Hw; subst ws.
  unfold Adapter.getAvailableWallets; cbn.
  destruct (isAvailable w k), (isAvailable w m); cbn; intuition.
Qed.

Lemma autoConnect_returns_available w this h :
  registered this ->
  completion (Adapter.autoConnect w this) = Return (Some h) ->
  In h (Adapter.getAvailableWallets w this).
Proof.
  intros (k & m & Hw & Hk & Hm).
  destruct this as [ws cur]; cbn in Hw; subst ws.
  unfold Adapter.autoConnect, Adapter.getAvailableWallets, isAvailable in *.
  unfold bind, get, ret; cbn -[connect].
  rewrite Hk, Hm in *.
  destruct (isAvailable_for w KAIKAS) eqn:Ak;
    destruct (isAvailable_for w METAMASK) eqn:Am; cbn -[connect].
  all: adapter_unfold; unfold isAvailable; cbn -[connect];
    rewrite ?Hk, ?Hm, ?Ak, ?Am; cbn -[connect].
  all: try (destruct (connect w k) as [fk tk [ak|ek]]; cbn -[connect]).
  all: unfold isAvailable; rewrite ?Hk, ?Hm, ?Ak, ?Am; cbn -[connect].
  all: try (destruct (connect w m) as [fm tm [am|em]]; cbn -[connect]).
  all: intros H; same_completion; try discriminate; cbn; tauto.
Qed.

(** C10. The constructor registers a Kaikas and a MetaMask service and
    nothing else, and no operation changes that.  So on every adapter
    the code can build: [selectWallet] of the WalletConnect kind throws
    [UnsupportedProvider]; the kind is not among the available wallets
    nor among the keys of [getWalletStates()]; and [autoConnect()]
    never returns it, although it is in the priority list. *)
Theorem C10_walletconnect_never_registered :
  forall (w : Web3.World) (this : Adapter.WalletAdapter),
    Adapter.reachable this ->
    Adapter.Map_keys (Adapter.wallets this) = [KAIKAS; METAMASK] /\
    Adapter.selectWallet w WALLET_CONNECT this
      = mkRun this [] (Throw (Adapter.UnsupportedProvider WALLET_CONNECT)) /\
    ~ In WALLET_CONNECT (Adapter.getAvailableWallets w this) /\
    Adapter.Map_keys (Adapter.getWalletStates this) = [KAIKAS; METAMASK] /\
    Adapter.Map_get WALLET_CONNECT (Adapter.getWalletStates this) = None /\
    completion (Adapter.autoConnect w this) <> Return (Some WALLET_CONNECT) /\
    In WALLET_CONNECT Adapter.priority.
Proof.
  intros w this Hreach.
  pose proof (reachable_registered this Hreach) as Hreg.
  assert (Hav : ~ In WALLET_CONNECT (Adapter.getAvailableWallets w this)).
  { intros H. destruct (available_registered w this Hreg _ H); discriminate. }
  assert (Hauto : completion (Adapter.autoConnect w this)
                  <> Return (Some WALLET_CONNECT)).
  { intros H. apply Hav. eapply autoConnect_returns_available; eassumption. }
  destruct Hreg as (k & m & Hw & Hk & Hm).
  destruct this as [ws cur]; cbn in Hw; subst ws.
  split; [reflexivity | ].
  split; [reflexivity | ].
  split; [exact Hav | ].
  split; [reflexivity | ].
  split; [reflexivity | ].
  split; [exact Hauto | ].
  cbn. tauto.
Qed.

Lemma C10_witness :
  Adapter.reachable
    (final (Adapter.run Examples.world_ok Adapter.op_autoConnect
              (Adapter.new Examples.world_ok))) /\
  Adapter.Map_keys
    (Adapter.getWalletStates
       (final (Adapter.run Examples.world_ok Adapter.op_autoConnect
                 (Adapter.new Examples.world_ok))))
    = [KAIKAS; METAMASK].
Proof.
  assert (R : Adapter.reachable
                (final (Adapter.run Examples.world_ok Adapter.op_autoConnect
                          (Adapter.new Examples.world_ok)))).
  { apply Adapter.reachable_run, Adapter.reachable_new. }
  split; [exact R | ].
  destruct (C10_walletconnect_never_registered Examples.world_ok _ R)
    as (_ & _ & _ & H & _).
  exact H.
Defined.

(* ================================================================= *)
(** ** The invariant of the wallet state *)

(** The invariant of the specification fails after a [connect()] that
    is declined on a service that was connected: the account of the
    first connection is still there while the status is [Error]. *)
Lemma C1_counterexample :
  reachable Examples.reconnect_declined /\
  status (state Examples.reconnect_declined) = ERROR /\
  account (state Examples.reconnect_declined)
    = Some (mkAccount "0xABC" "1000000000000000000") /\
  ~ WalletState_invariant (state Examples.reconnect_declined) /\
  ~ connected_iff_account (state Examples.reconnect_declined).
Proof.
  split; [ | split; [ | split; [ | split ]]].
  - unfold Examples.reconnect_declined. do 2 apply reachable_run. apply reachable_new.
  - reflexivity.
  - reflexivity.
  - intros [H _]. cbn in H. discriminate H. discriminate.
  - intros [_ H]. cbn in H. discriminate H. discriminate.
Qed.

(** Every state write keeps the first and the third implication. *)
Lemma write_keeps s wr : kept_by_writes s -> kept_by_writes (apply_write s wr).
Proof.
  destruct s as [st a n p e]. unfold kept_by_writes, apply_write, merge.
  destruct wr; cbn; intuition congruence.
Qed.

(** An operation changes the state by state writes only. *)
Lemma run_is_writes w o this :
  exists writes,
    state (final (run w o this)) = fold_left apply_write writes (state this).
Proof.
  destruct this as [st h wl q nl]; cbn [state].
  destruct o as [ | | | | ad | pa | m | c | [accs | c | ]]; run_unfold;
    cbn -[merge].
  all: repeat (break_match; cbn -[merge]).
  all: solve [ exists []; reflexivity
             | exists [write_disconnected]; reflexivity
             | eexists [write_connecting; write_error _]; reflexivity
             | eexists [write_connecting; write_connected _ _]; reflexivity
             | eexists [write_account _]; reflexivity
             | eexists [write_network _]; reflexivity ].
Qed.

(** The callbacks are their two halves, one after the other. *)
Lemma on_chainChanged_halves w c this :
  on_chainChanged w c this
  = (network0 <- on_chainChanged_query w c ;; on_chainChanged_then network0) this.
Proof.
  destruct this as [st h wl q nl].
  unfold on_chainChanged, on_chainChanged_query, on_chainChanged_then.
  run_unfold; cbn. run_cases ltac:(reflexivity). all: reflexivity.
Qed.

Lemma on_accountsChanged_halves w first rest this :
  on_accountsChanged w (first :: rest) this
  = (emit (accountsChanged (first :: rest)) ;;
     account0 <- getAccount w ;;
     on_accountsChanged_then account0) this.
Proof. reflexivity. Qed.

(** The second implication does not survive an overlap: the write of
    the ['chainChanged'] callback, deferred past its chain query, lands
    after a [disconnect()] that ran in between. *)
Example deferred_write_after_disconnect :
  let asked :=
    on_chainChanged_query Examples.world_ok "0x2019" Examples.connected in
  let late :=
    final (on_chainChanged_then (Some DEFAULT_NETWORK)
             (final (disconnect (final asked)))) in
  completion asked = Return (Some DEFAULT_NETWORK) /\
  status (state late) = DISCONNECTED /\
  network (state late) = Some DEFAULT_NETWORK /\
  ~ disconnected_is_empty (state late) /\
  kept_by_writes (state late).
Proof.
  cbn zeta. split; [reflexivity | split; [reflexivity | split; [reflexivity | ]]].
  split.
  - intros H. destruct (H eq_refl) as [_ Hn]. discriminate Hn.
  - split; intros H; discriminate H.
Qed.

(** C1 (amended). When operations and notification callbacks run to
    completion one after the other, then in every state a service can
    reach, and so in every entry of [getWalletStates()] of every
    adapter the code can build: [status = Connected] implies a non-null
    account; [status = Disconnected] implies account and network null;
    [status = Error] implies a non-null error.  The first and the third
    implication do not need that proviso: an operation changes the
    state by the state writes of the code only, the state the
    constructor builds satisfies both, and every single write keeps
    both, in whatever order the writes land. *)
Theorem C1_maintained_invariant :
  (forall this : KaiaWalletService,
     reachable this -> maintained (state this)) /\
  (forall (a : Adapter.WalletAdapter) (p : WalletProvider) (s : WalletState),
     Adapter.reachable a ->
     Adapter.Map_get p (Adapter.getWalletStates a) = Some s ->
     maintained s) /\
  (forall (w : Web3.World) (o : Op) (this : KaiaWalletService),
     exists writes,
       state (final (run w o this)) = fold_left apply_write writes (state this)) /\
  (forall (w : Web3.World) (p : WalletProvider),
     kept_by_writes (state (new w p))) /\
  (forall (s : WalletState) (wr : StateWrite),
     kept_by_writes s -> kept_by_writes (apply_write s wr)) /\
  (forall (s : WalletState) (writes : list StateWrite),
     kept_by_writes s -> kept_by_writes (fold_left apply_write writes s)).
Proof.
  split; [ | split; [ | split; [ | split; [ | split]]]].
  - intros this H. apply consistent_maintained, reachable_consistent, H.
  - intros a p s Ha Hs.
    destruct (backends_of_registered a (reachable_registered a Ha)
                (reachable_backends a Ha))
      as (k & m & Hw & _ & _ & Rk & Rm).
    destruct a as [ws cur]; cbn in Hw; subst ws.
    unfold Adapter.getWalletStates, getState in Hs; cbn in Hs.
    destruct p; cbn in Hs; inversion Hs; subst;
      apply consistent_maintained, reachable_consistent; assumption.
  - apply run_is_writes.
  - intros w p. split; intros H; discriminate H.
  - apply write_keeps.
  - intros s writes. revert s.
    induction writes as [|wr rest IH]; intros s H; cbn.
    + exact H.
    + apply IH, write_keeps, H.
Qed.

Lemma C1_witness :
  reachable Examples.reconnect_declined /\
  maintained (state Examples.reconnect_declined).
Proof.
  assert (R : reachable Examples.reconnect_declined).
  { unfold Examples.reconnect_declined. do 2 apply reachable_run. apply reachable_new. }
  split.
  - exact R.
  - apply (proj1 C1_maintained_invariant Examples.reconnect_declined). exact R.
Defined.

(* ================================================================= *)
(** ** The cases of the test suite *)

Example isAvailable_installed :
  isAvailable Examples.world_ok (new Examples.world_ok KAIKAS) = true /\
  isAvailable Examples.world_ok (new Examples.world_ok METAMASK) = true /\
  isAvailable Examples.world_no_wallet (new Examples.world_no_wallet KAIKAS) = false /\
  isAvailable Examples.world_no_window (new Examples.world_no_window METAMASK) = false.
Proof. repeat split. Qed.

Example connect_not_installed :
  completion (connect Examples.world_no_wallet (new Examples.world_no_wallet KAIKAS))
  = Throw (Error "kaikas 지갑이 설치되지 않았습니다.").
Proof. reflexivity. Qed.

Example getBalance_not_connected :
  completion (getBalance Examples.world_ok None (new Examples.world_ok KAIKAS))
  = Throw (Error "지갑이 연결되지 않았습니다.").
Proof. reflexivity. Qed.

Example getBalance_of_address :
  completion (getBalance Examples.world_ok
                (Some "0x1234567890123456789012345678901234567890")
                Examples.connected)
  = Return "1000000000000000000".
Proof. reflexivity. Qed.

Example sendTransaction_mined :
  completion (sendTransaction Examples.world_ok
                (mkTransactionParams "0x9876543210987654321098765432109876543210"
                   (Some "1000000000000000000") None None None)
                Examples.connected)
  = Return (mkTransactionResult "0xabcdef1234567890" (Some 12345%Z) (Some "21000")).
Proof. reflexivity. Qed.

Example signMessage_signed :
  completion (signMessage Examples.world_ok "Hello, Kaia!" Examples.connected)
  = Return "0xsignature123".
Proof. reflexivity. Qed.

Example switchNetwork_testnet :
  trace (switchNetwork Examples.world_ok 1001 (new Examples.world_ok KAIKAS))
  = [request_effect Web3.klaytn (Web3.wallet_switchEthereumChain "0x3e9")].
Proof. reflexivity. Qed.

Example switchNetwork_unsupported :
  switchNetwork Examples.world_ok 99999 (new Examples.world_ok KAIKAS)
  = mkRun (new Examples.world_ok KAIKAS) []
          (Throw (Error "지원하지 않는 네트워크입니다: 99999")).
Proof. reflexivity. Qed.

(** Without a global [window], [getProvider()] fails before the chain
    is looked up. *)
Example switchNetwork_without_window :
  switchNetwork Examples.world_no_window 999999 (new Examples.world_no_window KAIKAS)
  = mkRun (new Examples.world_no_window KAIKAS) []
          (Throw Web3.ReferenceError_window).
Proof. reflexivity. Qed.

Example selectWallet_current :
  completion (Adapter.selectWallet Examples.world_ok KAIKAS
                (Adapter.new Examples.world_ok)) = Return KAIKAS /\
  Adapter.getCurrentWallet
    (final (Adapter.selectWallet Examples.world_ok KAIKAS
              (Adapter.new Examples.world_ok))) = Some KAIKAS.
Proof. split; reflexivity. Qed.

Example getWalletStates_fresh w :
  Adapter.getWalletStates (Adapter.new w)
  = [(KAIKAS, mkWalletState DISCONNECTED None None (Some KAIKAS) None);
     (METAMASK, mkWalletState DISCONNECTED None None (Some METAMASK) None)].
Proof. reflexivity. Qed.

Example disconnectAll_after_autoConnect :
  let a := final (Adapter.disconnectAll
                    (final (Adapter.autoConnect Examples.world_ok
                              (Adapter.new Examples.world_ok)))) in
  Adapter.getCurrentWallet a = None /\
  status_of a KAIKAS = Some DISCONNECTED /\
  status_of a METAMASK = Some DISCONNECTED.
Proof. repeat split. Qed.

(* ================================================================= *)
(** ** Queries, transactions and signatures only read *)

Lemma sendTransaction_reads w params this :
  final (sendTransaction w params this) = this /\
  trace (sendTransaction w params this) = [].
Proof.
  destruct this as [st h wl q nl]. run_unfold; cbn.
  run_cases ltac:(split; reflexivity). all: split; reflexivity.
Qed.

Lemma signMessage_reads w msg this :
  final (signMessage w msg this) = this /\
  trace (signMessage w msg this) = [].
Proof.
  destruct this as [st h wl q nl]. run_unfold; cbn.
  run_cases ltac:(split; reflexivity). all: split; reflexivity.
Qed.

Lemma switchNetwork_reads w c this :
  final (switchNetwork w c this) = this /\
  forall e, ~ In (emit_effect e) (trace (switchNetwork w c this)).
Proof.
  destruct this as [st h wl q nl]. run_unfold; cbn.
  run_cases ltac:(try (split; [reflexivity | cbn; intuition discriminate])).
  all: split; [reflexivity | cbn; intuition discriminate].
Qed.

(** X1. [getAccount], [getNetwork], [getBalance], [sendTransaction],
    [signMessage] and [switchNetwork] leave the service exactly as it
    was and emit no event, whether they return or throw.  So a failed
    query, transaction, signature or network switch never changes the
    connection status. *)
Theorem X1_reads_leave_the_service :
  forall (w : Web3.World) (this : KaiaWalletService)
         (address0 : option string) (params : TransactionParams)
         (msg : string) (chainId0 : Z) (e : WalletEvent),
    (final (getAccount w this) = this /\
     ~ In (emit_effect e) (trace (getAccount w this))) /\
    (final (getNetwork w this) = this /\
     ~ In (emit_effect e) (trace (getNetwork w this))) /\
    (final (getBalance w address0 this) = this /\
     ~ In (emit_effect e) (trace (getBalance w address0 this))) /\
    (final (sendTransaction w params this) = this /\
     ~ In (emit_effect e) (trace (sendTransaction w params this))) /\
    (final (signMessage w msg this) = this /\
     ~ In (emit_effect e) (trace (signMessage w msg this))) /\
    (final (switchNetwork w chainId0 this) = this /\
     ~ In (emit_effect e) (trace (switchNetwork w chainId0 this))).
Proof.
  intros.
  destruct (getAccount_reads w this) as [F1 T1].
  destruct (getNetwork_reads w this) as [F2 T2].
  destruct (getBalance_reads w address0 this) as [F3 T3].
  destruct (sendTransaction_reads w params this) as [F4 T4].
  destruct (signMessage_reads w msg this) as [F5 T5].
  destruct (switchNetwork_reads w chainId0 this) as [F6 T6].
  rewrite T1, T2, T3, T4, T5.
  repeat split; try assumption; try (intros []); apply T6.
Qed.

(* ================================================================= *)
(** ** getAccount and getNetwork *)

(** X2. [getAccount] never throws.  It returns null without a provider
    handle, when the account query fails or gives no account, and when
    the balance query fails; otherwise it returns the first account of
    the session with the decimal rendering of its balance. *)
Theorem X2_getAccount :
  forall (w : Web3.World) (this : KaiaWalletService),
    let r := getAccount w this in
    (exists res, completion r = Return res) /\
    (web3Provider this = None -> completion r = Return None) /\
    (forall h, web3Provider this = Some h ->
       let A := Web3.answers w (inner h) in
       (forall e, Web3.listAccounts A = Throw e -> completion r = Return None) /\
       (Web3.listAccounts A = Return None \/
        Web3.listAccounts A = Return (Some []) -> completion r = Return None) /\
       (forall first rest,
          Web3.listAccounts A = Return (Some (first :: rest)) ->
          (forall e, Web3.getBalance A (address_of first) = Throw e ->
             completion r = Return None) /\
          (forall b, Web3.getBalance A (address_of first) = Return b ->
             completion r
               = Return (Some (mkAccount (address_of first) (toString b)))))).
Proof.
  intros w [st h0 wl q nl]; cbn zeta; cbn [web3Provider].
  split; [ | split].
  - run_unfold; cbn. run_cases ltac:(try (eexists; reflexivity)).
    all: eexists; reflexivity.
  - intros ->. reflexivity.
  - intros h ->.
    unfold getAccount, try_catch, bind, get, ret, await; cbn -[getBalance].
    split; [ | split].
    + intros e ->. reflexivity.
    + intros [-> | ->]; reflexivity.
    + intros first rest Hl. rewrite Hl; cbn -[getBalance].
      rewrite (getBalance_of_first w st h wl q nl first rest Hl); cbn.
      split; [intros e -> | intros b ->]; reflexivity.
Qed.

Lemma X2_witness :
  web3Provider Examples.connected = Some (mkWeb3Provider Web3.klaytn) /\
  completion (getAccount Examples.world_network_down Examples.connected)
    = Return (Some (mkAccount "0xABC" "1000000000000000000")).
Proof.
  split; [reflexivity | ].
  destruct (X2_getAccount Examples.world_network_down Examples.connected)
    as (_ & _ & H).
  destruct (H (mkWeb3Provider Web3.klaytn) eq_refl) as (_ & _ & H').
  destruct (H' (Web3.entry_string "0xABC") [] eq_refl) as [_ Hb].
  exact (Hb 1000000000000000000%N eq_refl).
Defined.

Lemma getNetworkByChainId_sound chainId0 n :
  getNetworkByChainId chainId0 = Some n ->
  chainId n = chainId0 /\ In n (map snd KAIA_NETWORKS).
Proof.
  intros H. unfold getNetworkByChainId in H.
  apply find_some in H. destruct H as [Hin Heq].
  apply Z.eqb_eq in Heq. split; assumption.
Qed.

(** X4. The registry lookup: what [getNetworkByChainId] returns is a
    registered network with the chain id asked for; it returns null
    exactly for the chain ids other than 8217 and 1001; and every
    registered network is found again by its own chain id. *)
Theorem X4_getNetworkByChainId :
  forall chainId0 : Z,
    (forall n, getNetworkByChainId chainId0 = Some n ->
       chainId n = chainId0 /\ In n (map snd KAIA_NETWORKS)) /\
    (getNetworkByChainId chainId0 = None <->
       (chainId0 <> 8217 /\ chainId0 <> 1001)%Z) /\
    (forall n, In n (map snd KAIA_NETWORKS) ->
       getNetworkByChainId (chainId n) = Some n).
Proof.
  intros c. split; [ | split].
  - intros n H. apply getNetworkByChainId_sound, H.
  - apply getNetworkByChainId_registered.
  - intros n [<- | [<- | []]]; reflexivity.
Qed.

(** X3. [getNetwork] never throws.  Without a provider handle, on a
    failed chain query and on a chain that is not registered it returns
    null; a network it returns is the registered one whose chain id is
    the chain the provider answered. *)
Theorem X3_getNetwork :
  forall (w : Web3.World) (this : KaiaWalletService),
    let r := getNetwork w this in
    (exists res, completion r = Return res) /\
    (web3Provider this = None -> completion r = Return None) /\
    (forall h, web3Provider this = Some h ->
       let A := Web3.answers w (inner h) in
       (forall e, Web3.getNetwork A = Throw e -> completion r = Return None) /\
       (forall chain, Web3.getNetwork A = Return chain ->
          (chain <> 8217 /\ chain <> 1001)%Z -> completion r = Return None) /\
       (forall n, completion r = Return (Some n) ->
          Web3.getNetwork A = Return (chainId n) /\
          In n (map snd KAIA_NETWORKS))).
Proof.
  intros w [st h0 wl q nl]; cbn zeta; cbn [web3Provider].
  split; [ | split].
  - run_unfold; cbn. run_cases ltac:(try (eexists; reflexivity)).
    all: eexists; reflexivity.
  - intros ->. reflexivity.
  - intros h ->. rewrite getNetwork_connected; cbn.
    split; [ | split].
    + intros e ->. reflexivity.
    + intros chain -> Hc.
      apply getNetworkByChainId_registered in Hc. rewrite Hc. reflexivity.
    + intros n. destruct (Web3.getNetwork _) as [chain|e]; intros H;
        inversion H as [Hn].
      destruct (getNetworkByChainId_sound chain n Hn) as [<- Hin]. split; [reflexivity | exact Hin].
Qed.

Lemma X3_witness :
  web3Provider Examples.connected = Some (mkWeb3Provider Web3.klaytn) /\
  completion (getNetwork Examples.world_network_down Examples.connected)
    = Return None.
Proof.
  split; [reflexivity | ].
  destruct (X3_getNetwork Examples.world_network_down Examples.connected)
    as (_ & _ & H).
  destruct (H (mkWeb3Provider Web3.klaytn) eq_refl) as (Hf & _).
  exact (Hf (Error "could not detect network") eq_refl).
Defined.

(* ================================================================= *)
(** ** sendTransaction and signMessage *)

(** The request [sendTransaction] hands to the signer. *)
Lemma sendTransaction_outcome w params st h wl q nl :
  completion (sendTransaction w params (mkService st (Some h) wl q nl))
  = match Web3.getSigner (Web3.answers w (inner h)) with
    | Throw cause => Throw (TransactionFailed cause)
    | Return signer =>
        match Web3.signer_sendTransaction signer
                (Web3.mkTransactionRequest (to params)
                   (or_default (value params) "0")
                   (or_default (data params) "0x")
                   (gas params) (gasPrice params)) with
        | Throw cause => Throw (TransactionFailed cause)
        | Return tx =>
            match Web3.wait tx with
            | Throw cause => Throw (TransactionFailed cause)
            | Return receipt =>
                Return (mkTransactionResult (Web3.tx_hash tx)
                          (match receipt with
                           | Some r => Web3.receipt_blockNumber r
                           | None => None
                           end)
                          (match receipt with
                           | Some r => option_map toString (Web3.receipt_gasUsed r)
                           | None => None
                           end))
            end
        end
    end.
Proof.
  run_unfold; cbn.
  destruct (Web3.getSigner _) as [signer|e]; cbn; [ | reflexivity].
  destruct (Web3.signer_sendTransaction _ _) as [tx|e]; cbn; [ | reflexivity].
  destruct (Web3.wait tx) as [receipt|e]; reflexivity.
Qed.

(** X5. [sendTransaction] throws [NotConnected] without a provider
    handle.  With one, the signer receives the recipient, the value
    (["0"] when absent or empty), the data (["0x"] when absent or
    empty) and the gas settings; whatever fails (no signer, a refused
    submission, a failed wait for the receipt) is thrown as
    [TransactionFailed] carrying the message of the cause; and a result
    carries the hash of the submitted transaction, with the block
    number and the gas used of the receipt, both absent when the wait
    gives no receipt. *)
Theorem X5_sendTransaction :
  forall (w : Web3.World) (params : TransactionParams) (this : KaiaWalletService),
    let r := sendTransaction w params this in
    (web3Provider this = None -> completion r = Throw NotConnected) /\
    (forall h, web3Provider this = Some h ->
       let A := Web3.answers w (inner h) in
       let txParams :=
         Web3.mkTransactionRequest (to params)
           (match value params with Some (String c v) => String c v | _ => "0" end)
           (match data params with Some (String c v) => String c v | _ => "0x" end)
           (gas params) (gasPrice params) in
       (forall e, completion r = Throw e ->
          exists cause, e = TransactionFailed cause /\
            (Web3.getSigner A = Throw cause \/
             exists signer, Web3.getSigner A = Return signer /\
               (Web3.signer_sendTransaction signer txParams = Throw cause \/
                exists tx, Web3.signer_sendTransaction signer txParams = Return tx /\
                           Web3.wait tx = Throw cause))) /\
       (forall res, completion r = Return res ->
          exists signer tx receipt,
            Web3.getSigner A = Return signer /\
            Web3.signer_sendTransaction signer txParams = Return tx /\
            Web3.wait tx = Return receipt /\
            hash res = Web3.tx_hash tx /\
            match receipt with
            | None => blockNumber res = None /\ gasUsed res = None
            | Some rc =>
                blockNumber res = Web3.receipt_blockNumber rc /\
                gasUsed res = option_map toString (Web3.receipt_gasUsed rc)
            end)).
Proof.
  intros w params [st h0 wl q nl]; cbn zeta; cbn [web3Provider].
  split.
  - intros ->. reflexivity.
  - intros h ->. rewrite sendTransaction_outcome. unfold or_default.
    destruct (Web3.getSigner _) as [signer|e0] eqn:Hs.
    2: { split; intros x H; inversion H; subst. eauto. }
    destruct (Web3.signer_sendTransaction _ _) as [tx|e0] eqn:Ht.
    2: { split; intros x H; inversion H; subst. eauto 8. }
    destruct (Web3.wait tx) as [receipt|e0] eqn:Hw.
    2: { split; intros x H; inversion H; subst. eauto 10. }
    split; intros x H; inversion H; subst.
    exists signer, tx, receipt. cbn.
    repeat split; try assumption. destruct receipt; split; reflexivity.
Qed.

Lemma X5_witness :
  web3Provider Examples.connected = Some (mkWeb3Provider Web3.klaytn) /\
  exists signer tx receipt,
    Web3.getSigner (Web3.answers Examples.world_ok Web3.klaytn) = Return signer /\
    Web3.signer_sendTransaction signer
      (Web3.mkTransactionRequest "0x9876" "0" "0x" None None) = Return tx /\
    Web3.wait tx = Return receipt /\
    hash (mkTransactionResult "0xabcdef1234567890" (Some 12345%Z) (Some "21000"))
      = Web3.tx_hash tx /\
    match receipt with
    | None => True
    | Some rc => Some 12345%Z = Web3.receipt_blockNumber rc
    end.
Proof.
  split; [reflexivity | ].
  destruct (X5_sendTransaction Examples.world_ok
              (mkTransactionParams "0x9876" None (Some "") None None)
              Examples.connected) as [_ H].
  destruct (H (mkWeb3Provider Web3.klaytn) eq_refl) as [_ Hres].
  destruct (Hres (mkTransactionResult "0xabcdef1234567890" (Some 12345%Z)
                    (Some "21000")) eq_refl)
    as (signer & tx & receipt & H1 & H2 & H3 & H4 & H5).
  exists signer, tx, receipt. repeat split; try assumption.
  destruct receipt as [rc|]; [apply H5 | exact I].
Defined.

(** X6. [signMessage] throws [NotConnected] without a provider handle.
    With one, it returns exactly the signature the signer gives for
    that message, and a missing signer or a refused signature is thrown
    as [SigningFailed] carrying the message of the cause. *)
Theorem X6_signMessage :
  forall (w : Web3.World) (msg : string) (this : KaiaWalletService),
    let r := signMessage w msg this in
    (web3Provider this = None -> completion r = Throw NotConnected) /\
    (forall h, web3Provider this = Some h ->
       let A := Web3.answers w (inner h) in
       (forall cause, Web3.getSigner A = Throw cause ->
          completion r = Throw (SigningFailed cause)) /\
       (forall signer, Web3.getSigner A = Return signer ->
          completion r =
            match Web3.signer_signMessage signer msg with
            | Return signature => Return signature
            | Throw cause => Throw (SigningFailed cause)
            end)).
Proof.
  intros w msg [st h0 wl q nl]; cbn zeta; cbn [web3Provider].
  split.
  - intros ->. reflexivity.
  - intros h ->. run_unfold; cbn. split.
    + intros cause ->. reflexivity.
    + intros signer ->. cbn.
      destruct (Web3.signer_signMessage signer msg); reflexivity.
Qed.

Lemma X6_witness :
  web3Provider Examples.connected = Some (mkWeb3Provider Web3.klaytn) /\
  completion (signMessage Examples.world_ok "Hello, Kaia!" Examples.connected)
    = Return "0xsignature123".
Proof.
  split; [reflexivity | ].
  destruct (X6_signMessage Examples.world_ok "Hello, Kaia!" Examples.connected)
    as [_ H].
  destruct (H (mkWeb3Provider Web3.klaytn) eq_refl) as [_ Hs].
  exact (Hs Examples.signer_ok eq_refl).
Defined.

(* ================================================================= *)
(** ** The callbacks on the injected object *)

(** X7. A native [chainChanged], on a service whose callbacks are
    registered, emits [chainChanged] with the notified id and nothing
    else, and changes only the [network] of the state: it becomes what
    a fresh chain query resolves to in the registry (the notified id is
    not used), and null when there is no provider handle, when the
    query fails or when the chain is not registered. *)
Theorem X7_native_chainChanged :
  forall (w : Web3.World) (c : string) (this : KaiaWalletService),
    nativeListeners this = true ->
    let r := notify w (native_chainChanged c) this in
    completion r = Return tt /\
    trace r = [emit_effect (chainChanged c)] /\
    final r =
      mkService
        (mkWalletState
           (status (state this)) (account (state this))
           (match web3Provider this with
            | None => None
            | Some h =>
                match Web3.getNetwork (Web3.answers w (inner h)) with
                | Return chain => getNetworkByChainId chain
                | Throw _ => None
                end
            end)
           (provider (state this)) (error (state this)))
        (web3Provider this) (wallet this) (walletProvider this)
        (nativeListeners this).
Proof.
  intros w c [[s a n p e] h wl q nl]; cbn [nativeListeners]; intros ->; cbn zeta.
  unfold notify, on_chainChanged, bind, get, emit, effect, updateState, set_state,
    put, merge; cbn -[getNetwork].
  destruct h as [h|].
  - rewrite getNetwork_connected; cbn. repeat split.
  - cbn. repeat split.
Qed.

Lemma X7_witness :
  nativeListeners Examples.connected = true /\
  network (state (final (notify Examples.world_network_down
                           (native_chainChanged "0x3e9") Examples.connected)))
    = None.
Proof.
  split; [reflexivity | ].
  destruct (X7_native_chainChanged Examples.world_network_down "0x3e9"
              Examples.connected eq_refl) as (_ & _ & H).
  rewrite H. reflexivity.
Defined.

(** X8. A native [accountsChanged] with at least one account, on a
    service whose callbacks are registered, emits [accountsChanged]
    with the notified list and nothing else, and changes at most the
    [account] of the state: it becomes what [getAccount] reads from the
    provider (the notified list is not used), and stays what it was
    when [getAccount] gives null. *)
Theorem X8_native_accountsChanged :
  forall (w : Web3.World) (first : string) (rest : list string)
         (this : KaiaWalletService),
    nativeListeners this = true ->
    let r := notify w (native_accountsChanged (first :: rest)) this in
    completion r = Return tt /\
    trace r = [emit_effect (accountsChanged (first :: rest))] /\
    final r =
      mkService
        (mkWalletState
           (status (state this))
           (match completion (getAccount w this) with
            | Return (Some a) => Some a
            | _ => account (state this)
            end)
           (network (state this)) (provider (state this)) (error (state this)))
        (web3Provider this) (wallet this) (walletProvider this)
        (nativeListeners this).
Proof.
  intros w first rest this Hl; cbn zeta.
  destruct (getAccount_reads w this) as [Hf Ht].
  assert (Hn : exists res, completion (getAccount w this) = Return res).
  { destruct this as [st h wl q nl]. run_unfold; cbn.
    run_cases ltac:(try (eexists; reflexivity)). all: eexists; reflexivity. }
  destruct Hn as [res Hres].
  unfold notify, on_accountsChanged, bind, get, emit, effect, updateState,
    set_state, put, ret, merge; cbn -[getAccount].
  rewrite Hl; cbn -[getAccount].
  destruct (getAccount w this) as [f t cpl]; cbn in Hf, Ht, Hres |- *.
  subst f t cpl.
  destruct this as [[s a n p e] h wl q nl].
  cbn in Hl; subst nl.
  destruct res as [acc|]; cbn; repeat split.
Qed.

Lemma X8_witness :
  nativeListeners Examples.connected = true /\
  account (state (final (notify Examples.world_no_account
                           (native_accountsChanged ["0xDEF"]) Examples.connected)))
    = Some (mkAccount "0xABC" "1000000000000000000").
Proof.
  split; [reflexivity | ].
  destruct (X8_native_accountsChanged Examples.world_no_account "0xDEF" []
              Examples.connected eq_refl) as (_ & _ & H).
  rewrite H. reflexivity.
Defined.

(** X9. The callbacks are registered by the constructor or never: a
    service constructed while its wallet was not available ignores
    every notification of the injected object, after any history of
    operations (also after a later [connect()] that succeeded). *)
Theorem X9_unavailable_at_construction_never_listens :
  forall (w0 : Web3.World) (p : WalletProvider)
         (history : list (Web3.World * Op)) (w : Web3.World) (n : Notification),
    isAvailable_for w0 p = false ->
    notify w n (run_all history (new w0 p))
    = mkRun (run_all history (new w0 p)) [] (Return tt).
Proof.
  intros w0 p history w n Hav.
  destruct (run_all_frame history (new w0 p)) as [_ Hl].
  cbn [new nativeListeners] in Hl. rewrite Hav in Hl.
  unfold notify, bind, get, ret; cbn. rewrite Hl. reflexivity.
Qed.

Lemma X9_witness :
  isAvailable_for Examples.world_no_wallet KAIKAS = false /\
  status (state (run_all [(Examples.world_ok, op_connect)]
                         (new Examples.world_no_wallet KAIKAS))) = CONNECTED /\
  notify Examples.world_ok (native_accountsChanged [])
         (run_all [(Examples.world_ok, op_connect)]
                  (new Examples.world_no_wallet KAIKAS))
  = mkRun (run_all [(Examples.world_ok, op_connect)]
                   (new Examples.world_no_wallet KAIKAS)) [] (Return tt).
Proof.
  split; [reflexivity | split; [reflexivity | ]].
  apply (X9_unavailable_at_construction_never_listens
           Examples.world_no_wallet KAIKAS [(Examples.world_ok, op_connect)]
           Examples.world_ok (native_accountsChanged [])).
  reflexivity.
Defined.

(* ================================================================= *)
(** ** disconnect forgets the history *)

Lemma run_frame_provider w o this :
  provider (state (final (run w o this))) = provider (state this).
Proof.
  destruct this as [[s a n p e] h wl q nl].
  destruct o as [ | | | | ad | pa | m | c | [accs | c | ]]; run_unfold; cbn.
  all: run_cases ltac:(reflexivity).
  all: reflexivity.
Qed.

Lemma run_all_frame_provider history this :
  provider (state (run_all history this)) = provider (state this).
Proof.
  revert this; induction history as [| [w o] rest IH]; intros this; cbn.
  - reflexivity.
  - rewrite IH. apply run_frame_provider.
Qed.

(** X10. Whatever happened to a service since its construction, its
    state still reports the provider kind it was constructed with, and
    [disconnect()] brings it back to exactly the service the
    constructor built. *)
Theorem X10_disconnect_restores_the_new_service :
  forall (w0 : Web3.World) (p : WalletProvider)
         (history : list (Web3.World * Op)),
    provider (state (run_all history (new w0 p))) = Some p /\
    walletProvider (run_all history (new w0 p)) = p /\
    final (disconnect (run_all history (new w0 p))) = new w0 p.
Proof.
  intros w0 p history.
  pose proof (run_all_frame_provider history (new w0 p)) as Hp.
  destruct (run_all_frame history (new w0 p)) as [Hk Hl].
  cbn [new state provider walletProvider nativeListeners] in Hp, Hk, Hl.
  split; [exact Hp | split; [exact Hk | ]].
  destruct (run_all history (new w0 p)) as [[s a n pr e] h wl q nl].
  cbn in Hp, Hk, Hl. subst pr q nl.
  destruct wl as [[]|]. reflexivity.
Qed.

(* ================================================================= *)
(** ** connect, attempt by attempt *)

(** What [connect()] of an available wallet does, read off the answers
    of the provider. *)
Lemma connect_available w this :
  isAvailable w this = true ->
  let obj := injected_of (walletProvider this) in
  let A := Web3.answers w obj in
  let after st' :=
    mkService st' (Some (mkWeb3Provider obj)) (wallet this)
              (walletProvider this) (nativeListeners this) in
  let asked := request_effect obj Web3.eth_requestAccounts in
  let failed e :=
    mkRun (after (mkWalletState ERROR (account (state this)) (network (state this))
                                (provider (state this)) (Some (message e))))
          [asked; emit_effect (error_event e)] (Throw e) in
  connect w this =
    match Web3.request A Web3.eth_requestAccounts with
    | Throw e => failed e
    | Return _ =>
        match Web3.listAccounts A with
        | Throw e => failed e
        | Return None | Return (Some []) => failed NoAccount
        | Return (Some (first :: _)) =>
            match Web3.getBalance A (address_of first) with
            | Throw cause => failed (BalanceFailed cause)
            | Return b =>
                let account0 := mkAccount (address_of first) (toString b) in
                mkRun (after (mkWalletState CONNECTED (Some account0)
                                (match Web3.getNetwork A with
                                 | Return chain => getNetworkByChainId chain
                                 | Throw _ => None
                                 end)
                                (provider (state this)) None))
                      [asked; emit_effect (connect_event account0)]
                      (Return account0)
            end
        end
    end.
Proof.
  destruct this as [st h wl q nl].
  intros Hav. unfold isAvailable in Hav; cbn [walletProvider] in Hav.
  destruct (available_window w q Hav) as [Hq [win [Hwin Hslot]]].
  cbn zeta.
  unfold connect, bind, get, isAvailable; cbn [walletProvider final trace completion].
  rewrite Hav; cbn [negb].
  unfold try_catch, handleError, updateState, set_state, set_web3Provider, emit,
    getProvider, request, bind, get, put, ret, throw, effect, await, merge.
  destruct q; try congruence; clear Hq.
  all: cbn -[getBalance getNetwork]; rewrite Hwin;
    cbn -[getBalance getNetwork]; rewrite Hslot; cbn -[getBalance getNetwork].
  all: destruct (Web3.request _ Web3.eth_requestAccounts) as [[]|er];
    cbn -[getBalance getNetwork]; [ | reflexivity].
  all: destruct (Web3.listAccounts _) as [[[|first rest]|]|el] eqn:Hl;
    cbn -[getBalance getNetwork]; try reflexivity.
  all: rewrite (getBalance_of_first w _ (mkWeb3Provider _) wl _ nl first rest Hl);
    cbn -[getBalance getNetwork];
    destruct (Web3.getBalance _ (address_of first)) as [b|eb];
    cbn -[getBalance getNetwork]; [ | reflexivity].
  all: rewrite getNetwork_connected; cbn; reflexivity.
Qed.

Lemma connect_unavailable w this :
  isAvailable w this = false ->
  connect w this = mkRun this [] (Throw (NotInstalled (walletProvider this))).
Proof.
  intros H. unfold connect, bind, get, throw; cbn. rewrite H. reflexivity.
Qed.

(** X11. A successful [connect()] can be repeated: in the same world a
    second [connect()] sends the account request again, emits [connect]
    again, returns the same account and leaves the service exactly as
    the first one left it. *)
Theorem X11_connect_twice :
  forall (w : Web3.World) (this : KaiaWalletService) (a : Account),
    completion (connect w this) = Return a ->
    connect w (final (connect w this))
    = mkRun (final (connect w this)) (trace (connect w this)) (Return a).
Proof.
  intros w this a Hret.
  destruct (isAvailable w this) eqn:Hav.
  2: { rewrite (connect_unavailable w this Hav) in Hret. discriminate Hret. }
  pose proof (connect_available w this Hav) as Hform. cbn zeta in Hform.
  rewrite Hform in Hret |- *.
  destruct (Web3.request _ Web3.eth_requestAccounts) as [[]|er] eqn:Hreq;
    [ | discriminate Hret].
  destruct (Web3.listAccounts _) as [[[|first rest]|]|el] eqn:Hl;
    try discriminate Hret.
  destruct (Web3.getBalance _ (address_of first)) as [b|eb] eqn:Hb;
    [ | discriminate Hret].
  cbn [final trace completion] in Hret |- *. inversion Hret; subst a; clear Hret.
  match goal with
  | |- connect w ?s = _ =>
      assert (Hav' : isAvailable w s = true) by exact Hav;
      pose proof (connect_available w s Hav') as Hform'
  end.
  cbn zeta in Hform'. cbn [walletProvider state account network provider wallet
                           nativeListeners] in Hform'.
  rewrite Hform', Hreq, Hl, Hb. reflexivity.
Qed.

Lemma X11_witness :
  completion (connect Examples.world_ok (new Examples.world_ok KAIKAS))
    = Return (mkAccount "0xABC" "1000000000000000000") /\
  completion (connect Examples.world_ok
                (final (connect Examples.world_ok (new Examples.world_ok KAIKAS))))
    = Return (mkAccount "0xABC" "1000000000000000000").
Proof.
  split; [reflexivity | ].
  rewrite (X11_connect_twice Examples.world_ok (new Examples.world_ok KAIKAS)
             (mkAccount "0xABC" "1000000000000000000") eq_refl).
  reflexivity.
Defined.

(** X12. Every [connect()] of an available wallet, whatever the state
    before, asks the injected object of its kind for account access
    and replaces the provider handle by a new one around that object.
    When it throws, the one event it emits is the [error] event with
    the thrown error, and the account and the network of the state are
    those from before the call: only [status] and [error] change. *)
Theorem X12_connect_attempt :
  forall (w : Web3.World) (this : KaiaWalletService),
    isAvailable w this = true ->
    let r := connect w this in
    let obj := injected_of (walletProvider this) in
    In (request_effect obj Web3.eth_requestAccounts) (trace r) /\
    web3Provider (final r) = Some (mkWeb3Provider obj) /\
    provider (state (final r)) = provider (state this) /\
    (forall e, completion r = Throw e ->
       (forall ev, In (emit_effect ev) (trace r) <-> ev = error_event e) /\
       account (state (final r)) = account (state this) /\
       network (state (final r)) = network (state this)).
Proof.
  intros w this Hav; cbn zeta.
  pose proof (connect_available w this Hav) as Hform. cbn zeta in Hform.
  rewrite Hform. clear Hform.
  destruct (Web3.request _ Web3.eth_requestAccounts) as [[]|er];
    [destruct (Web3.listAccounts _) as [[[|first rest]|]|el];
     [ | destruct (Web3.getBalance _ (address_of first)) as [b|eb] | | ] | ].
  all: repeat split; intros; cbn in *; same_completion; try reflexivity.
  all: try (left; reflexivity).
  all: try (repeat match goal with
                   | H : _ \/ _ |- _ => destruct H
                   | H : False |- _ => destruct H
                   end; congruence).
  all: subst; right; left; reflexivity.
Qed.

Lemma X12_witness :
  isAvailable Examples.world_rejecting Examples.connected = true /\
  account (state (final (connect Examples.world_rejecting Examples.connected)))
    = account (state Examples.connected).
Proof.
  split; [reflexivity | ].
  destruct (X12_connect_attempt Examples.world_rejecting Examples.connected eq_refl)
    as (_ & _ & _ & H).
  destruct (H Examples.user_rejected eq_refl) as (_ & Ha & _).
  exact Ha.
Defined.

(* ================================================================= *)
(** ** getProvider *)

(** X13. [getProvider] never changes the service.  For an available
    wallet it returns the injected object of the kind; for the
    WalletConnect kind it throws, whatever the window; for the two
    other kinds it throws only when there is no global [window], and
    returns [undefined] when the window does not hold the object. *)
Theorem X13_getProvider :
  forall (w : Web3.World) (this : KaiaWalletService),
    let r := getProvider w this in
    final r = this /\ trace r = [] /\
    (isAvailable w this = true ->
       completion r = Return (Some (injected_of (walletProvider this)))) /\
    (walletProvider this = WALLET_CONNECT ->
       completion r = Throw (UnsupportedWalletProvider WALLET_CONNECT)) /\
    (walletProvider this <> WALLET_CONNECT ->
       (Web3.window w = None -> completion r = Throw Web3.ReferenceError_window) /\
       (forall win, Web3.window w = Some win ->
          exists obj, completion r = Return obj /\
            (obj = None <->
             match walletProvider this with
             | KAIKAS => Web3.window_klaytn win
             | _ => Web3.window_ethereum win
             end = None))).
Proof.
  intros w [st h wl q nl]; cbn zeta; cbn [walletProvider].
  unfold getProvider, isAvailable, isAvailable_for, bind, get, ret, throw; cbn.
  split; [ | split; [ | split; [ | split]]].
  - destruct q; try reflexivity; destruct (Web3.window w); reflexivity.
  - destruct q; try reflexivity; destruct (Web3.window w); reflexivity.
  - destruct (Web3.window w) as [win|]; [ | discriminate].
    destruct q; cbn.
    + destruct (Web3.window_klaytn win) as [[]|]; try discriminate; reflexivity.
    + destruct (Web3.window_ethereum win) as [[]|]; try discriminate; reflexivity.
    + discriminate.
  - intros ->. reflexivity.
  - intros Hq. split.
    + intros ->. destruct q; try reflexivity; congruence.
    + intros win ->. destruct q; try congruence; cbn.
      * destruct (Web3.window_klaytn win); eexists; split; try reflexivity;
          split; congruence.
      * destruct (Web3.window_ethereum win); eexists; split; try reflexivity;
          split; congruence.
Qed.

Lemma X13_witness :
  isAvailable Examples.world_ok (new Examples.world_ok METAMASK) = true /\
  completion (getProvider Examples.world_ok (new Examples.world_ok METAMASK))
    = Return (Some Web3.ethereum).
Proof.
  split; [reflexivity | ].
  destruct (X13_getProvider Examples.world_ok (new Examples.world_ok METAMASK))
    as (_ & _ & H & _).
  exact (H eq_refl).
Defined.

(* ================================================================= *)
(** ** The chain id sent to the provider *)

Import Encoding.

(** X14. The chain id [switchNetwork] sends is ["0x"] followed by
    hexadecimal digits that read back as the chain id, for every
    non-negative chain id; for a registered chain the add-chain
    parameter carries that same id, the registered name, exactly the
    registered RPC URL, and one block-explorer URL. *)
Theorem X14_chain_id_encoding :
  forall chainId0 : Z,
    (0 <= chainId0)%Z ->
    (exists digits,
       hexChainId chainId0 = "0x" ++ digits /\
       parse_hex digits = Some (Z.to_N chainId0)) /\
    (forall n, getNetworkByChainId chainId0 = Some n ->
       Web3.add_chainId (addChainParameter chainId0 n) = hexChainId chainId0 /\
       Web3.chainName (addChainParameter chainId0 n) = name n /\
       Web3.rpcUrls (addChainParameter chainId0 n) = [rpcUrl n] /\
       exists url, blockExplorerUrl n = Some url /\
         Web3.blockExplorerUrls (addChainParameter chainId0 n) = Some [url]).
Proof.
  intros c Hc. split.
  - unfold hexChainId, toString16.
    destruct (Z.ltb_spec c 0) as [Hlt|_]; [lia | ].
    eexists; split; [reflexivity | ].
    unfold parse_hex. rewrite HexadecimalString.NilEmpty.usu. cbn.
    now rewrite HexadecimalN.Unsigned.of_to.
  - intros n Hn.
    destruct (getNetworkByChainId_sound c n Hn) as [_ Hin].
    repeat split.
    destruct Hin as [<- | [<- | []]]; eexists; split; reflexivity.
Qed.

Lemma X14_witness :
  (0 <= 1001)%Z /\
  exists digits,
    hexChainId 1001 = "0x" ++ digits /\ parse_hex digits = Some 1001%N.
Proof.
  split; [lia | ].
  destruct (X14_chain_id_encoding 1001 ltac:(lia)) as [H _].
  exact H.
Defined.

(* ================================================================= *)
(** ** The adapter: availability, selection and bulk disconnect *)

(** X15. On every adapter the code can build, [getAvailableWallets]
    lists Kaikas and MetaMask, in that order, each exactly when its
    wallet is available, and never anything else; and [selectWallet]
    returns a wallet exactly for the kinds that list contains. *)
Theorem X15_available_iff_selectable :
  forall (w : Web3.World) (this : Adapter.WalletAdapter),
    Adapter.reachable this ->
    Adapter.getAvailableWallets w this
      = filter (isAvailable_for w) [KAIKAS; METAMASK] /\
    (forall p,
       In p (Adapter.getAvailableWallets w this) <->
       completion (Adapter.selectWallet w p this) = Return p).
Proof.
  intros w this Hreach.
  destruct (reachable_registered this Hreach) as (k & m & Hw & Hk & Hm).
  destruct this as [ws cur]; cbn in Hw; subst ws.
  unfold Adapter.getAvailableWallets, Adapter.selectWallet, isAvailable,
    bind, get, put, ret, throw; cbn.
  rewrite Hk, Hm.
  split.
  - destruct (isAvailable_for w KAIKAS), (isAvailable_for w METAMASK); reflexivity.
  - intros p.
    destruct (isAvailable_for w KAIKAS) eqn:Ak;
      destruct (isAvailable_for w METAMASK) eqn:Am;
      destruct p; cbn; rewrite ?Hk, ?Hm, ?Ak, ?Am; cbn.
    all: split; intros H; try reflexivity; try discriminate H;
      try (repeat destruct H as [H|H]; try discriminate H; contradiction);
      auto.
Qed.

Lemma X15_witness :
  Adapter.reachable (Adapter.new Examples.world_ok) /\
  Adapter.getAvailableWallets Examples.world_ok (Adapter.new Examples.world_ok)
    = [KAIKAS; METAMASK].
Proof.
  assert (R : Adapter.reachable (Adapter.new Examples.world_ok))
    by apply Adapter.reachable_new.
  split; [exact R | ].
  destruct (X15_available_iff_selectable Examples.world_ok
              (Adapter.new Examples.world_ok) R) as [H _].
  exact H.
Defined.

(** X16. On every adapter the code can build, [disconnectAll] returns
    normally and clears the current wallet.  A wallet that was
    [Connected] is left as [disconnect()] leaves it; a wallet in any
    other status is not touched, so a wallet in [Error] keeps its
    provider handle.  Afterwards no wallet is [Connected], and the only
    things emitted are [disconnect] events. *)
Theorem X16_disconnectAll :
  forall this : Adapter.WalletAdapter,
    Adapter.reachable this ->
    let r := Adapter.disconnectAll this in
    completion r = Return tt /\
    Adapter.getCurrentWallet (final r) = None /\
    (forall p wallet0,
       Adapter.Map_get p (Adapter.wallets this) = Some wallet0 ->
       Adapter.Map_get p (Adapter.wallets (final r))
       = Some (match status (state wallet0) with
               | CONNECTED => final (disconnect wallet0)
               | _ => wallet0
               end)) /\
    (forall p, status_of (final r) p <> Some CONNECTED) /\
    (forall e, In e (trace r) ->
       exists p, e = Adapter.wallet_effect p (emit_effect disconnect_event)).
Proof.
  intros this Hreach; cbn zeta.
  destruct (reachable_registered this Hreach) as (k & m & Hw & Hk & Hm).
  destruct this as [ws cur]; cbn in Hw; subst ws. clear Hreach.
  destruct k as [[sk ak nk pk ek] hk wlk qk nlk].
  destruct m as [[sm am nm pm em] hm wlm qm nlm].
  cbn in Hk, Hm; subst qk qm.
  unfold status_of.
  adapter_unfold; cbn. adapter_unfold; unfold getState; cbn.
  destruct sk; cbn; destruct sm; cbn.
  all: repeat split; try discriminate.
  all: try (intros p wallet0; destruct p; cbn; intros H; inversion H; reflexivity).
  all: try (intros p; destruct p; cbn; discriminate).
  all: intros e H; cbn in H;
    repeat destruct H as [H|H]; try contradiction; subst; eexists; reflexivity.
Qed.

Lemma X16_witness :
  Adapter.reachable
    (final (Adapter.run Examples.world_kaikas_rejecting Adapter.op_autoConnect
              (Adapter.new Examples.world_kaikas_rejecting))) /\
  status_of
    (final (Adapter.disconnectAll
              (final (Adapter.run Examples.world_kaikas_rejecting
                        Adapter.op_autoConnect
                        (Adapter.new Examples.world_kaikas_rejecting)))))
    KAIKAS = Some ERROR /\
  Adapter.getCurrentWallet
    (final (Adapter.disconnectAll
              (final (Adapter.run Examples.world_kaikas_rejecting
                        Adapter.op_autoConnect
                        (Adapter.new Examples.world_kaikas_rejecting)))))
    = None.
Proof.
  assert (R : Adapter.reachable
                (final (Adapter.run Examples.world_kaikas_rejecting
                          Adapter.op_autoConnect
                          (Adapter.new Examples.world_kaikas_rejecting)))).
  { apply Adapter.reachable_run, Adapter.reachable_new. }
  split; [exact R | split; [reflexivity | ]].
  destruct (X16_disconnectAll _ R) as (_ & H & _).
  exact H.
Defined.

(* ================================================================= *)
(** ** getWalletStates *)

Lemma WalletProvider_eqb_eq p q : WalletProvider_eqb p q = true <-> p = q.
Proof. destruct p, q; cbn; split; intros H; congruence. Qed.

Lemma WalletProvider_eqb_neq p q : p <> q -> WalletProvider_eqb p q = false.
Proof. destruct p, q; cbn; intros H; congruence. Qed.

Lemma Map_set_fresh {V} (k : WalletProvider) (v : V) (m : Adapter.Map V) :
  ~ In k (Adapter.Map_keys m) -> Adapter.Map_set k v m = (m ++ [(k, v)])%list.
Proof.
  induction m as [| [k' v'] rest IH]; cbn; intros H.
  - reflexivity.
  - rewrite WalletProvider_eqb_neq by (intros ->; apply H; left; reflexivity).
    rewrite IH by (intros Hin; apply H; right; exact Hin). reflexivity.
Qed.

Lemma Map_get_map {V U} (f : V -> U) (k : WalletProvider) (m : Adapter.Map V) :
  Adapter.Map_get k (map (fun entry => (fst entry, f (snd entry))) m)
  = option_map f (Adapter.Map_get k m).
Proof.
  induction m as [| [k' v'] rest IH]; cbn.
  - reflexivity.
  - destruct (WalletProvider_eqb k k'); [reflexivity | exact IH].
Qed.

Lemma getWalletStates_fold (ws : Adapter.Map KaiaWalletService)
      (acc : Adapter.Map WalletState) :
  NoDup (Adapter.Map_keys acc ++ Adapter.Map_keys ws) ->
  fold_left
    (fun states entry =>
       Adapter.Map_set (fst entry) (getState (snd entry)) states) ws acc
  = (acc ++ map (fun entry => (fst entry, getState (snd entry))) ws)%list.
Proof.
  revert acc; induction ws as [| [k v] rest IH]; intros acc Hnd; cbn.
  - now rewrite app_nil_r.
  - cbn in Hnd.
    rewrite Map_set_fresh.
    + rewrite IH.
      * now rewrite <- app_assoc.
      * unfold Adapter.Map_keys in *. rewrite map_app; cbn.
        rewrite <- app_assoc. exact Hnd.
    + apply NoDup_remove_2 in Hnd. intros Hin. apply Hnd.
      apply in_or_app. left. exact Hin.
Qed.

(** X17. When the registry holds each kind at most once (as every
    registry filled through [Map.set] does), [getWalletStates] is the
    list of the wallets' states in registration order, one entry per
    wallet, and looking a kind up in it gives the state of the wallet
    registered under that kind. *)
Theorem X17_getWalletStates :
  forall this : Adapter.WalletAdapter,
    NoDup (Adapter.Map_keys (Adapter.wallets this)) ->
    Adapter.getWalletStates this
      = map (fun entry => (fst entry, getState (snd entry))) (Adapter.wallets this) /\
    Adapter.Map_keys (Adapter.getWalletStates this)
      = Adapter.Map_keys (Adapter.wallets this) /\
    (forall p,
       Adapter.Map_get p (Adapter.getWalletStates this)
       = option_map getState (Adapter.Map_get p (Adapter.wallets this))).
Proof.
  intros this Hnd.
  assert (E : Adapter.getWalletStates this
              = map (fun entry => (fst entry, getState (snd entry)))
                    (Adapter.wallets this)).
  { unfold Adapter.getWalletStates. rewrite getWalletStates_fold; [reflexivity | ].
    exact Hnd. }
  split; [exact E | split].
  - rewrite E. unfold Adapter.Map_keys. rewrite map_map. reflexivity.
  - intros p. rewrite E. apply Map_get_map.
Qed.

Lemma X17_witness :
  NoDup (Adapter.Map_keys
           (Adapter.wallets
              (final (Adapter.autoConnect Examples.world_ok
                        (Adapter.new Examples.world_ok))))) /\
  option_map status
    (Adapter.Map_get KAIKAS
       (Adapter.getWalletStates
          (final (Adapter.autoConnect Examples.world_ok
                    (Adapter.new Examples.world_ok)))))
  = Some CONNECTED.
Proof.
  assert (H : NoDup (Adapter.Map_keys
                       (Adapter.wallets
                          (final (Adapter.autoConnect Examples.world_ok
                                    (Adapter.new Examples.world_ok)))))).
  { cbn. repeat constructor; cbn; intuition discriminate. }
  split; [exact H | ].
  destruct (X17_getWalletStates _ H) as (_ & _ & Hg).
  rewrite Hg. reflexivity.
Defined.

(* ================================================================= *)
(** ** What autoConnect leaves behind *)

(** X18. On every adapter the code can build, [autoConnect] does not
    touch a wallet that is not available, and does not touch MetaMask
    when Kaikas connects.  When it returns null after trying, the
    current wallet is not reset: it is the last wallet tried, now in
    [Error]. *)
Theorem X18_autoConnect_leftovers :
  forall (w : Web3.World) (this : Adapter.WalletAdapter),
    Adapter.reachable this ->
    let r := Adapter.autoConnect w this in
    let available := Adapter.getAvailableWallets w this in
    (forall p, ~ In p available ->
       Adapter.Map_get p (Adapter.wallets (final r))
       = Adapter.Map_get p (Adapter.wallets this)) /\
    (completion r = Return (Some KAIKAS) ->
       Adapter.Map_get METAMASK (Adapter.wallets (final r))
       = Adapter.Map_get METAMASK (Adapter.wallets this)) /\
    (completion r = Return None -> available <> [] ->
       Adapter.getCurrentWallet (final r) = Some (last available KAIKAS) /\
       status_of (final r) (last available KAIKAS) = Some ERROR).
Proof.
  intros w this Hreach; cbn zeta.
  destruct (reachable_registered this Hreach) as (k & m & Hw & Hk & Hm).
  destruct this as [ws cur]; cbn in Hw; subst ws. clear Hreach.
  pose proof (connect_outcome w k) as Ok. pose proof (connect_outcome w m) as Om.
  unfold status_of.
  unfold Adapter.autoConnect, Adapter.getAvailableWallets, isAvailable in *.
  unfold bind, get, ret; cbn -[connect].
  rewrite Hk, Hm in *.
  destruct (isAvailable_for w KAIKAS) eqn:Ak;
    destruct (isAvailable_for w METAMASK) eqn:Am; cbn -[connect].
  all: adapter_unfold; unfold isAvailable; cbn -[connect];
    rewrite ?Hk, ?Hm, ?Ak, ?Am; cbn -[connect].
  all: try (specialize (Ok eq_refl)); try (specialize (Om eq_refl)).
  all: try (destruct (connect w k) as [fk tk [ak|ek]] eqn:Ek;
            cbn -[connect] in Ok |- *).
  all: unfold isAvailable; rewrite ?Hk, ?Hm, ?Ak, ?Am; cbn -[connect].
  all: try (destruct (connect w m) as [fm tm [am|em]] eqn:Em;
            cbn -[connect] in Om |- *).
  all: repeat split; intros; same_completion; try discriminate;
    try congruence.
  all: cbn -[connect] in *.
  all: try match goal with
         | p : WalletProvider |- _ => destruct p; cbn -[connect] in *
         end.
  all: try reflexivity; try tauto; try congruence.
  all: try (exfalso; tauto).
  all: try (rewrite (proj1 Ok); reflexivity).
  all: try (rewrite (proj1 Om); reflexivity).
Qed.

Lemma X18_witness :
  Adapter.reachable (Adapter.new Examples.world_rejecting) /\
  completion (Adapter.autoConnect Examples.world_rejecting
                (Adapter.new Examples.world_rejecting)) = Return None /\
  Adapter.getCurrentWallet
    (final (Adapter.autoConnect Examples.world_rejecting
              (Adapter.new Examples.world_rejecting))) = Some METAMASK.
Proof.
  assert (R : Adapter.reachable (Adapter.new Examples.world_rejecting))
    by apply Adapter.reachable_new.
  split; [exact R | split; [reflexivity | ]].
  destruct (X18_autoConnect_leftovers Examples.world_rejecting
              (Adapter.new Examples.world_rejecting) R) as (_ & _ & H).
  destruct (H eq_refl ltac:(discriminate)) as [Hc _].
  exact Hc.
Defined.

(* ================================================================= *)
(** ** The validators of the integration set-up *)

Lemma hex_exactly_spec n s :
  Setup.hex_exactly n s = true <->
  String.length s = n /\ Setup.all_hex s = true.
Proof.
  revert s; induction n as [|n IH]; intros [|c rest]; cbn.
  - tauto.
  - split; [discriminate | intros [H _]; discriminate H].
  - split; [discriminate | intros [H _]; discriminate H].
  - rewrite andb_true_iff, IH. unfold Setup.all_hex; cbn.
    rewrite andb_true_iff. split.
    + intros [Hc [Hl Hr]]. subst n. tauto.
    + intros [Hl [Hc Hr]]. inversion Hl. tauto.
Qed.

Lemma test_0x_hex_spec n s :
  Setup.test_0x_hex n s = true <->
  exists digits,
    s = "0x" ++ digits /\ String.length digits = n /\ Setup.all_hex digits = true.
Proof.
  unfold Setup.test_0x_hex. split.
  - destruct s as [|c1 [|c2 rest]]; try discriminate.
    rewrite !andb_true_iff. intros [[H1 H2] H3].
    apply Ascii.eqb_eq in H1, H2. subst c1 c2.
    apply hex_exactly_spec in H3. exists rest. tauto.
  - intros (digits & -> & Hl & Hh). cbn.
    apply hex_exactly_spec. tauto.
Qed.

(** X19. [isValidAddress] accepts exactly the strings made of ["0x"]
    and 40 hexadecimal digits of either case, [isValidTxHash] and
    [isValidBlockHash] exactly those made of ["0x"] and 64 of them; so
    the two hash validators agree, an accepted address has 42
    characters, and no string is both an address and a hash. *)
Theorem X19_validators :
  forall s : string,
    (Setup.isValidAddress s = true <->
       exists digits, s = "0x" ++ digits /\
         String.length digits = 40%nat /\ Setup.all_hex digits = true) /\
    (Setup.isValidTxHash s = true <->
       exists digits, s = "0x" ++ digits /\
         String.length digits = 64%nat /\ Setup.all_hex digits = true) /\
    Setup.isValidBlockHash s = Setup.isValidTxHash s /\
    (Setup.isValidAddress s = true -> String.length s = 42%nat) /\
    (Setup.isValidAddress s = true -> Setup.isValidTxHash s = false).
Proof.
  intros s.
  split; [apply test_0x_hex_spec | ].
  split; [apply test_0x_hex_spec | ].
  split; [reflexivity | ].
  split.
  - intros H. apply test_0x_hex_spec in H.
    destruct H as (digits & -> & Hl & _). cbn. now rewrite Hl.
  - intros H. apply test_0x_hex_spec in H.
    destruct H as (digits & -> & Hl & _).
    destruct (Setup.isValidTxHash ("0x" ++ digits)) eqn:E; [ | reflexivity].
    apply test_0x_hex_spec in E. destruct E as (digits' & Heq & Hl' & _).
    inversion Heq; subst digits'. rewrite Hl in Hl'. discriminate Hl'.
Qed.

Lemma X19_witness :
  Setup.isValidAddress "0x716f89D9bc333286c79DB4eCA1016DD27B58b9B4" = true /\
  Setup.isValidTxHash "0x716f89D9bc333286c79DB4eCA1016DD27B58b9B4" = false.
Proof.
  split; [reflexivity | ].
  destruct (X19_validators "0x716f89D9bc333286c79DB4eCA1016DD27B58b9B4")
    as (_ & _ & _ & _ & H).
  exact (H eq_refl).
Defined.

(* ================================================================= *)
(** ** retryNetworkCall *)

Section Retry.

Context {A : Type}.
Variable fn : nat -> Completion A.
Variable err : nat -> JsError.
Variables maxRetries delay : Z.

Lemma warnings_cons_warn msg e pause t :
  Setup.warnings ((Setup.console_warn msg e :: pause) ++ t)
  = S (Setup.warnings pause + Setup.warnings t).
Proof.
  unfold Setup.warnings. cbn. rewrite filter_app, length_app. reflexivity.
Qed.

Lemma pauses_cons_warn msg e pause t :
  Setup.pauses ((Setup.console_warn msg e :: pause) ++ t)
  = (Setup.pauses pause + Setup.pauses t)%nat.
Proof.
  unfold Setup.pauses. cbn. rewrite filter_app, length_app. reflexivity.
Qed.

(** The loop when the next [k] calls fail and the one after answers. *)
Lemma retry_loop_success k v :
  forall remaining i lastError,
    (i + remaining)%nat = Z.to_nat maxRetries ->
    (k < remaining)%nat ->
    (forall j, (j < k)%nat -> fn (i + j) = Throw (err (i + j))) ->
    fn (i + k) = Return v ->
    let out := Setup.retry_loop fn maxRetries delay remaining i lastError in
    snd out = Setup.Resolved v /\
    Setup.warnings (fst out) = k /\ Setup.pauses (fst out) = k.
Proof.
  induction k as [|k IH]; intros remaining i lastError Hm Hk Hfail Hok;
    destruct remaining as [|remaining]; try lia; cbn zeta; cbn [Setup.retry_loop].
  - rewrite Nat.add_0_r in Hok. rewrite Hok. cbn. repeat split.
  - pose proof (Hfail 0%nat ltac:(lia)) as H0. rewrite Nat.add_0_r in H0.
    rewrite H0. cbn [fst snd].
    destruct (IH remaining (S i) (Some (err i)) ltac:(lia) ltac:(lia))
      as (Hr & Hw & Hp).
    + intros j Hj. replace (S i + j)%nat with (i + S j)%nat by lia.
      apply Hfail. lia.
    + replace (S i + k)%nat with (i + S k)%nat by lia. exact Hok.
    + rewrite warnings_cons_warn, pauses_cons_warn, Hw, Hp.
      split; [exact Hr | ].
      destruct (Z.ltb_spec (Z.of_nat i) (maxRetries - 1)) as [_|Hge]; [ | lia].
      split; reflexivity.
Qed.

(** The loop when every remaining call fails. *)
Lemma retry_loop_exhausted :
  forall remaining i lastError,
    (i + remaining)%nat = Z.to_nat maxRetries ->
    (forall j, (j < remaining)%nat -> fn (i + j) = Throw (err (i + j))) ->
    let out := Setup.retry_loop fn maxRetries delay remaining i lastError in
    snd out = Setup.Rejected
                (match remaining with
                 | O => lastError
                 | S r => Some (err (i + r))
                 end) /\
    Setup.warnings (fst out) = remaining /\
    Setup.pauses (fst out) = (remaining - 1)%nat.
Proof.
  induction remaining as [|remaining IH]; intros i lastError Hm Hfail;
    cbn zeta; cbn [Setup.retry_loop].
  - repeat split.
  - pose proof (Hfail 0%nat ltac:(lia)) as H0. rewrite Nat.add_0_r in H0.
    rewrite H0. cbn [fst snd].
    destruct (IH (S i) (Some (err i)) ltac:(lia)) as (Hr & Hw & Hp).
    + intros j Hj. replace (S i + j)%nat with (i + S j)%nat by lia.
      apply Hfail. lia.
    + rewrite warnings_cons_warn, pauses_cons_warn, Hw, Hp, Hr.
      split.
      * destruct remaining as [|r]; [now rewrite Nat.add_0_r | ].
        now replace (S i + r)%nat with (i + S r)%nat by lia.
      * destruct (Z.ltb_spec (Z.of_nat i) (maxRetries - 1)) as [Hlt|Hge];
          cbn; split; lia.
Qed.

End Retry.

(** X20. [retryNetworkCall] returns the answer of the first call that
    succeeds: when the first [k] calls fail and call [k + 1] answers,
    with [k] below [maxRetries], it resolves with that answer, having
    logged one warning and waited once after each of the [k]
    failures. *)
Theorem X20_retry_until_success :
  forall (A : Type) (fn : nat -> Completion A) (err : nat -> JsError)
         (maxRetries delay : Z) (k : nat) (v : A),
    (Z.of_nat k < maxRetries)%Z ->
    (forall j, (j < k)%nat -> fn j = Throw (err j)) ->
    fn k = Return v ->
    let out := Setup.retryNetworkCall fn (Some maxRetries) (Some delay) in
    snd out = Setup.Resolved v /\
    Setup.warnings (fst out) = k /\
    Setup.pauses (fst out) = k.
Proof.
  intros A fn err m d k v Hk Hfail Hok.
  unfold Setup.retryNetworkCall.
  apply (retry_loop_success fn err m d k v (Z.to_nat m) 0 None);
    try assumption; lia.
Qed.

Lemma X20_witness :
  (Z.of_nat 2 < 3)%Z /\
  Setup.retryNetworkCall Setup.flaky (Some 3%Z) (Some 1000%Z)
  = ([Setup.console_warn "네트워크 호출 실패 (1/3):" (Error "timeout");
      Setup.setTimeout 1000;
      Setup.console_warn "네트워크 호출 실패 (2/3):" (Error "reset");
      Setup.setTimeout 1000],
     Setup.Resolved "0x1") /\
  snd (Setup.retryNetworkCall Setup.flaky (Some 3%Z) (Some 1000%Z))
  = Setup.Resolved "0x1".
Proof.
  split; [reflexivity | split; [reflexivity | ]].
  apply (X20_retry_until_success string Setup.flaky
           (fun j => match j with O => Error "timeout" | _ => Error "reset" end)
           3 1000 2 "0x1").
  - reflexivity.
  - intros [|[|j]] Hj; [reflexivity | reflexivity | lia].
  - reflexivity.
Defined.

(** X21. When every call fails, [retryNetworkCall] makes exactly
    [maxRetries] calls, logs one warning for each, waits between them
    but not after the last, and rejects with the error of the last
    call.  With [maxRetries] zero or negative it calls nothing and
    rejects with [undefined]. *)
Theorem X21_retry_exhausted :
  forall (A : Type) (fn : nat -> Completion A) (err : nat -> JsError)
         (maxRetries delay : Z),
    (forall j, (Z.of_nat j < maxRetries)%Z -> fn j = Throw (err j)) ->
    let out := @Setup.retryNetworkCall A fn (Some maxRetries) (Some delay) in
    snd out = Setup.Rejected
                (if (maxRetries <=? 0)%Z then None
                 else Some (err (Z.to_nat (maxRetries - 1)))) /\
    Setup.warnings (fst out) = Z.to_nat maxRetries /\
    Setup.pauses (fst out) = Z.to_nat (maxRetries - 1) /\
    ((maxRetries <= 0)%Z -> out = ([], Setup.Rejected None)).
Proof.
  intros A fn err m d Hfail; cbn zeta.
  unfold Setup.retryNetworkCall.
  destruct (retry_loop_exhausted fn err m d (Z.to_nat m) 0 None eq_refl)
    as (Hr & Hw & Hp).
  { intros j Hj. apply Hfail. lia. }
  split; [ | split; [exact Hw | split; [rewrite Hp; lia | ]]].
  - rewrite Hr. destruct (Z.leb_spec m 0) as [Hle|Hgt].
    + replace (Z.to_nat m) with 0%nat by lia. reflexivity.
    + destruct (Z.to_nat m) as [|r] eqn:E; [lia | ].
      cbn. do 2 f_equal. f_equal. lia.
  - intros Hle. replace (Z.to_nat m) with 0%nat by lia. reflexivity.
Qed.

Lemma X21_witness :
  (forall j, (Z.of_nat j < 2)%Z -> Setup.flaky j
     = Throw (match j with O => Error "timeout" | _ => Error "reset" end)) /\
  snd (Setup.retryNetworkCall Setup.flaky (Some 2%Z) (Some 1000%Z))
  = Setup.Rejected (Some (Error "reset")).
Proof.
  assert (H : forall j, (Z.of_nat j < 2)%Z -> Setup.flaky j
     = Throw (match j with O => Error "timeout" | _ => Error "reset" end)).
  { intros [|[|j]] Hj; [reflexivity | reflexivity | lia]. }
  split; [exact H | ].
  destruct (X21_retry_exhausted string Setup.flaky
              (fun j => match j with O => Error "timeout" | _ => Error "reset" end)
              2 1000 H) as [Hr _].
  exact Hr.
Defined.

(* ================================================================= *)
(** ** Status, handle and error between operations *)

Lemma run_settled w o this :
  status (state this) <> CONNECTING ->
  status (state (final (run w o this))) <> CONNECTING.
Proof.
  destruct this as [[s a n p e] h wl q nl]; cbn [state status].
  intros H.
  destruct o as [ | | | | ad | pa | m | c | [accs | c | ]]; run_unfold; cbn.
  all: run_cases ltac:(first [ exact H | discriminate ]).
  all: first [ exact H | discriminate ].
Qed.

Lemma reachable_settled this :
  reachable this -> status (state this) <> CONNECTING.
Proof.
  induction 1 as [w p | w o this _ IH].
  - discriminate.
  - apply run_settled, IH.
Qed.

(** X22. Between operations the status is never [Connecting]; a
    [Connected] service has a provider handle and no error message; a
    [Disconnected] service has no provider handle and no error
    message. *)
Theorem X22_status_handle_error :
  forall this : KaiaWalletService,
    reachable this ->
    status (state this) <> CONNECTING /\
    (status (state this) = CONNECTED ->
       web3Provider this <> None /\ error (state this) = None) /\
    (status (state this) = DISCONNECTED ->
       web3Provider this = None /\ error (state this) = None).
Proof.
  intros this H.
  split; [apply reachable_settled, H | ].
  pose proof (reachable_consistent this H) as Hc. unfold consistent in Hc.
  split; intros Hs; rewrite Hs in Hc; tauto.
Qed.

Lemma X22_witness :
  reachable Examples.connected /\
  web3Provider Examples.connected <> None /\
  error (state Examples.connected) = None.
Proof.
  assert (R : reachable Examples.connected).
  { unfold Examples.connected. apply reachable_run, reachable_new. }
  split; [exact R | ].
  destruct (X22_status_handle_error Examples.connected R) as (_ & H & _).
  exact (H eq_refl).
Defined.

Lemma X4_witness :
  getNetworkByChainId 1001 = Some (mkNetwork 1001 "Kaia Testnet Kairos"
                                     "https://public-en-kairos.node.kaia.io"
                                     (Some "https://kairos.kaiascan.io")) /\
  In (mkNetwork 1001 "Kaia Testnet Kairos"
        "https://public-en-kairos.node.kaia.io"
        (Some "https://kairos.kaiascan.io")) (map snd KAIA_NETWORKS).
Proof.
  split; [reflexivity | ].
  destruct (X4_getNetworkByChainId 1001) as (H & _).
  exact (proj2 (H _ eq_refl)).
Defined.
